(** * Madison Book Library front end: interaction contracts of the components

    A shallow embedding of the event handlers of the four React components
    (Onboarding, ChatBar, ChatMessage, FeedbackModal).  Every component is a
    record of its [useState] cells; every handler is a computation that
    reads the cells of the current render, queues state updates and leaves a
    trace of the outside calls it makes (network posts, toasts, callback
    props, [preventDefault]). *)

From Stdlib Require Import ZArith NArith.
From stdpp Require Import base list strings gmap.

Open Scope string_scope.
Open Scope list_scope.

(** ** Outside world *)

(** Bodies handed to [JSON.stringify] before a [fetch]; one constructor per
    object literal of the source, fields in source order.  A field that the
    literal leaves out is absent from the constructor. *)
Inductive Body : Type :=
| ConsentBody (type consent ts userAgent : string)
| DemographicsBody (type occupation ageRange ts userAgent : string)
| ThumbsRemoveBody (action type messageId : string)
| ThumbsBody (action messageId message : string)
| ExtendedBody (type : string) (helpfulnessRating citationRating : Z)
    (feedbackText : list N) (conversation : list (string * string)).

(** Calls that leave the component, in the order they are made. *)
Inductive effect : Type :=
| Fetch (url method : string) (body : Body)
| ToastSuccess (msg : string)
| ToastError (msg : string)
| PreventDefault
| OnComplete
| OnSend
| OnStop
| OnContextChange (ids : list string)
| OnOpenFeedback
| OnPromptHandled
| OnClose.

Definition is_fetch (e : effect) : bool :=
  match e with Fetch _ _ _ => true | _ => false end.

Definition is_onContextChange (e : effect) : bool :=
  match e with OnContextChange _ => true | _ => false end.

Definition is_onSend (e : effect) : bool :=
  match e with OnSend => true | _ => false end.

Definition is_onComplete (e : effect) : bool :=
  match e with OnComplete => true | _ => false end.

Definition is_preventDefault (e : effect) : bool :=
  match e with PreventDefault => true | _ => false end.

Definition count (p : effect → bool) (tr : list effect) : nat :=
  length (List.filter p tr).

(** What the handlers read from the browser: the clock behind
    [new Date().toISOString()] and [navigator], which may be undefined. *)
Record Env : Type := mkEnv {
  now_iso : string;
  navigator_userAgent : option string
}.

(** [typeof navigator !== "undefined" ? navigator.userAgent : ""] *)
Definition userAgent_of (env : Env) : string :=
  match navigator_userAgent env with
  | Some ua => ua
  | None => ""
  end.

(** ** Handlers

    A handler runs against the state of one component and returns a value,
    the state after its queued updates, and the trace of its effects. *)
Definition Handler (S A : Type) : Type := S → A * S * list effect.

Section handler.
Context {S : Type}.

Definition h_ret {A} (a : A) : Handler S A := λ s, (a, s, []).

Definition h_bind {A B} (f : A → Handler S B) (m : Handler S A) : Handler S B :=
  λ s, let '(a, s1, t1) := m s in
       let '(b, s2, t2) := f a s1 in
       (b, s2, t1 ++ t2).

Definition get : Handler S S := λ s, (s, s, []).
Definition modify (f : S → S) : Handler S unit := λ s, (tt, f s, []).
Definition emit (e : effect) : Handler S unit := λ s, (tt, s, [e]).
Definition skip : Handler S unit := h_ret tt.

(** State and trace left by a handler. *)
Definition exec {A} (m : Handler S A) (s : S) : S * list effect :=
  let '(_, s', t) := m s in (s', t).
Definition state_after {A} (m : Handler S A) (s : S) : S := fst (exec m s).
Definition trace_of {A} (m : Handler S A) (s : S) : list effect := snd (exec m s).
End handler.

#[global] Instance handler_ret {S} : MRet (Handler S) := @h_ret S.
#[global] Instance handler_bind {S} : MBind (Handler S) := @h_bind S.

(** [fetch(url, { method: "POST", headers: ..., body: JSON.stringify(b) })]
    wrapped in [try { ... .catch(() => {}) } catch (e) {}]: the call is made,
    its outcome is never looked at, and control always reaches the statement
    after the [try]. *)
Definition post {S} (url : string) (b : Body) : Handler S unit :=
  emit (Fetch url "POST" b).

(** * ChatBar: the composer and its context picker *)
Module ChatBar.

Record ContextOption : Type := mkOption { id : string; label : string }.

Definition CONTEXT_OPTIONS : list ContextOption := [
  mkOption "blackstone -- commentaries v1" "Blackstone — Commentaries on the Laws of England, Vol. 1";
  mkOption "blackstone -- commentaries v2" "Blackstone — Commentaries on the Laws of England, Vol. 2";
  mkOption "blackstone -- commentaries v3" "Blackstone — Commentaries on the Laws of England, Vol. 3";
  mkOption "blackstone -- commentaries v4" "Blackstone — Commentaries on the Laws of England, Vol. 4";
  mkOption "De Lolme -- The Constitution of England" "De Lolme — The Constitution of England";
  mkOption "Filmer -- The Anarchy of a Limited or Mixed Monarchy" "Filmer — The Anarchy of a Limited or Mixed Monarchy";
  mkOption "Harrington -- The Commonwealth of Oceana" "Harrington — The Commonwealth of Oceana";
  mkOption "Hunton -- A Treatise of Monarchy" "Hunton — A Treatise of Monarchy";
  mkOption "Locke -- Second Treatise of Government" "Locke — Second Treatise of Government";
  mkOption "Montesquieu -- spirit of laws" "Montesquieu — The Spirit of Laws";
  mkOption "Rousseau -- The Social Contract" "Rousseau — The Social Contract";
  mkOption "Vattel -- The Law of Nations" "Vattel — The Law of Nations"
].

(** [CONTEXT_OPTIONS.map((o) => o.id)] *)
Definition catalog_ids : list string := id <$> CONTEXT_OPTIONS.

(** The props the handlers look at.  [onContextChange] and [onStop] are
    optional; the flags say whether the parent passed them. *)
Record Props : Type := mkProps {
  has_onContextChange : bool;
  isStreaming : bool;
  has_onStop : bool
}.

(** The two [useState] cells. *)
Record State : Type := mkState { open : bool; selected : list string }.

Definition setOpen (f : bool → bool) : Handler State unit :=
  modify (λ s, mkState (f (open s)) (selected s)).

Definition setSelected (f : list string → list string) : Handler State unit :=
  modify (λ s, mkState (open s) (f (selected s))).

(** [useState(false)] and
    [useState([CONTEXT_OPTIONS[0].id, CONTEXT_OPTIONS[1].id])]; the catalog
    is a literal with twelve entries, so both reads are in range. *)
Definition initial_selected : list string :=
  match CONTEXT_OPTIONS !! 0%nat, CONTEXT_OPTIONS !! 1%nat with
  | Some o0, Some o1 => [id o0; id o1]
  | _, _ => []
  end.

Definition init : State := mkState false initial_selected.

(** [prev.includes(id) ? prev.filter((l) => l !== id) : [...prev, id]] *)
Definition toggle (i : string) (prev : list string) : list string :=
  if bool_decide (i ∈ prev) then filter (λ l, l ≠ i) prev else prev ++ [i].

Definition toggleOption (i : string) : Handler State unit :=
  setSelected (toggle i).

(** [selected.length === CONTEXT_OPTIONS.length], computed at render. *)
Definition allSelected (s : State) : bool :=
  bool_decide (length (selected s) = length CONTEXT_OPTIONS).

Definition toggleAll : Handler State unit :=
  s ← get;
  setSelected (λ _, if allSelected s then [] else catalog_ids).

(** [onContextChange?.(selected); setOpen(false)] *)
Definition confirm (p : Props) : Handler State unit :=
  s ← get;
  (if has_onContextChange p then emit (OnContextChange (selected s)) else skip);;
  setOpen (λ _, false).

(** The document-level listeners.  A click carries whether the wrapper is
    mounted ([wrapperRef.current]) and whether it contains the target. *)
Record MouseEvent : Type := mkClick { wrapper_mounted : bool; target_in_wrapper : bool }.

Definition handleClick (e : MouseEvent) : Handler State unit :=
  s ← get;
  if open s && wrapper_mounted e && negb (target_in_wrapper e)
  then setOpen (λ _, false) else skip.

Definition handleKey (key : string) : Handler State unit :=
  if bool_decide (key = "Escape") then setOpen (λ _, false) else skip.

(** The Books button: [setOpen((v) => !v)]. *)
Definition booksClick : Handler State unit := setOpen negb.

(** The textarea. *)
Record KeyboardEvent : Type := mkKey { key : string; shiftKey : bool }.

Definition onKeyDown (e : KeyboardEvent) : Handler State unit :=
  if bool_decide (key e = "Enter") && negb (shiftKey e)
  then emit PreventDefault;; emit OnSend
  else skip.

(** The trailing control: Send unless [isStreaming], else Stop with
    [onStop && onStop()]. *)
Definition trailingClick (p : Props) : Handler State unit :=
  if negb (isStreaming p) then emit OnSend
  else if has_onStop p then emit OnStop else skip.

(** User actions on a mounted composer. *)
Inductive Action : Type :=
| ToggleOption (i : string)
| ToggleAll
| Confirm
| OutsideClick (e : MouseEvent)
| KeyDownDocument (key : string)
| BooksClick
| KeyDownTextarea (e : KeyboardEvent)
| TrailingClick.

Definition handle (p : Props) (a : Action) : Handler State unit :=
  match a with
  | ToggleOption i => toggleOption i
  | ToggleAll => toggleAll
  | Confirm => confirm p
  | OutsideClick e => handleClick e
  | KeyDownDocument k => handleKey k
  | BooksClick => booksClick
  | KeyDownTextarea e => onKeyDown e
  | TrailingClick => trailingClick p
  end.

(** One render per action: each handler sees the state its predecessor left. *)
Fixpoint run (p : Props) (acts : list Action) : Handler State unit :=
  match acts with
  | [] => skip
  | a :: rest => handle p a;; run p rest
  end.

(** The panel renders one checkbox per catalog entry, so [toggleOption] is
    only ever invoked on a catalog id. *)
Definition offered (a : Action) : Prop :=
  match a with
  | ToggleOption i => i ∈ catalog_ids
  | _ => True
  end.

Definition reachable (s : State) : Prop :=
  ∃ p acts, Forall offered acts ∧ s = state_after (run p acts) init.

(** A selection is well formed when it lists catalog ids without repeats. *)
Definition well_formed (l : list string) : Prop :=
  NoDup l ∧ l ⊆ catalog_ids.

Definition is_toggle (a : Action) : bool :=
  match a with
  | ToggleOption _ | ToggleAll => true
  | _ => false
  end.

End ChatBar.

(** * Onboarding: consent, then demographics *)
Module Onboarding.

(** The four [useState] cells; [currentStep] is a JavaScript number. *)
Record State : Type := mkState {
  currentStep : Z;
  consentGiven : bool;
  occupation : string;
  ageRange : string
}.

Definition init : State := mkState 1 false "" "".

Definition setCurrentStep (n : Z) : Handler State unit :=
  modify (λ s, mkState n (consentGiven s) (occupation s) (ageRange s)).

Definition setConsentGiven (b : bool) : Handler State unit :=
  modify (λ s, mkState (currentStep s) b (occupation s) (ageRange s)).

Definition setOccupation (v : string) : Handler State unit :=
  modify (λ s, mkState (currentStep s) (consentGiven s) v (ageRange s)).

Definition setAgeRange (v : string) : Handler State unit :=
  modify (λ s, mkState (currentStep s) (consentGiven s) (occupation s) v).

(** A string in a boolean position: only the empty string is falsy. *)
Definition truthy (v : string) : bool := negb (bool_decide (v = "")).

Definition handleConsentContinue (env : Env) : Handler State unit :=
  s ← get;
  if consentGiven s then
    post "/api/onboarding"
      (ConsentBody "consent" "accepted" (now_iso env) (userAgent_of env));;
    setCurrentStep 2
  else skip.

Definition handleDemographicContinue (env : Env) : Handler State unit :=
  s ← get;
  post "/api/onboarding"
    (DemographicsBody "demographics" (occupation s) (ageRange s)
       (now_iso env) (userAgent_of env));;
  emit OnComplete.

(** [disabled={!consentGiven}] and [disabled={!occupation || !ageRange}] *)
Definition consent_disabled (s : State) : bool := negb (consentGiven s).

Definition demographic_disabled (s : State) : bool :=
  negb (truthy (occupation s)) || negb (truthy (ageRange s)).

End Onboarding.

(** * ChatMessage: one message and its feedback actions *)
Module ChatMessage.

Inductive Role : Type := user | assistant.

Record Message : Type := mkMessage { id : string; role : Role; content : string }.

(** [thumbsState] is ["up" | "down" | null]; [null] is [None]. *)
Inductive Thumb : Type := up | down.

(** Optional props: a callback is a flag (passed or not),
    [showFeedbackPrompt] keeps its [undefined], [isLastAssistantMessage]
    is only read as a condition, where [undefined] counts as [false]. *)
Record Props : Type := mkProps {
  message : Message;
  isLastAssistantMessage : bool;
  has_onOpenFeedback : bool;
  showFeedbackPrompt : option bool;
  has_onPromptHandled : bool
}.

Record State : Type := mkState { thumbsState : option Thumb; showPrompt : bool }.

(** [x ?? d] *)
Definition nullish (x : option bool) (d : bool) : bool :=
  match x with Some b => b | None => d end.

Definition init (p : Props) : State :=
  mkState None (nullish (showFeedbackPrompt p) false).

Definition setThumbsState (t : option Thumb) : Handler State unit :=
  modify (λ s, mkState t (showPrompt s)).

Definition setShowPrompt (b : bool) : Handler State unit :=
  modify (λ s, mkState (thumbsState s) b).

(** The effect on [[showFeedbackPrompt]]. *)
Definition syncPrompt (p : Props) : Handler State unit :=
  if nullish (showFeedbackPrompt p) false then setShowPrompt true else skip.

Definition handleThumbsUp (p : Props) : Handler State unit :=
  s ← get;
  match thumbsState s with
  | Some up =>
      setThumbsState None;;
      setShowPrompt false;;
      emit (ToastSuccess "Feedback removed");;
      post "/api/feedback"
        (ThumbsRemoveBody "remove" "thumbs_up" (id (message p)))
  | _ =>
      setThumbsState (Some up);;
      setShowPrompt true;;
      emit (ToastSuccess "Thanks for the positive feedback!");;
      post "/api/feedback"
        (ThumbsBody "up" (id (message p)) (content (message p)))
  end.

Definition handleThumbsDown (p : Props) : Handler State unit :=
  s ← get;
  match thumbsState s with
  | Some down =>
      setThumbsState None;;
      setShowPrompt false;;
      emit (ToastSuccess "Feedback removed");;
      post "/api/feedback"
        (ThumbsRemoveBody "remove" "thumbs_down" (id (message p)))
  | _ =>
      setThumbsState (Some down);;
      setShowPrompt true;;
      emit (ToastSuccess "Thanks for your feedback");;
      post "/api/feedback"
        (ThumbsBody "down" (id (message p)) (content (message p)))
  end.

Definition handleThumb (d : Thumb) : Props → Handler State unit :=
  match d with up => handleThumbsUp | down => handleThumbsDown end.

(** The inline prompt is part of the assistant branch of the render:
    [isLastAssistantMessage && onOpenFeedback && (showFeedbackPrompt ?? true)
     && showPrompt]. *)
Definition prompt_rendered (p : Props) (s : State) : bool :=
  match role (message p) with
  | user => false
  | assistant =>
      isLastAssistantMessage p && has_onOpenFeedback p
      && nullish (showFeedbackPrompt p) true && showPrompt s
  end.

Definition dismissClick (p : Props) : Handler State unit :=
  setShowPrompt false;;
  if has_onPromptHandled p then emit OnPromptHandled else skip.

Definition giveFeedbackClick (p : Props) : Handler State unit :=
  setShowPrompt false;;
  (if has_onOpenFeedback p then emit OnOpenFeedback else skip);;
  if has_onPromptHandled p then emit OnPromptHandled else skip.

(** Feedback events in a trace, by the [action] field of their body. *)
Definition feedback_action (e : effect) : option string :=
  match e with
  | Fetch "/api/feedback" _ (ThumbsRemoveBody a _ _) => Some a
  | Fetch "/api/feedback" _ (ThumbsBody a _ _) => Some a
  | _ => None
  end.

Definition feedback_actions (tr : list effect) : list string :=
  omap feedback_action tr.

End ChatMessage.

(** * FeedbackModal: two star ratings and a free text *)
Module FeedbackModal.

(** [feedbackText] is inspected character by character by [trim], so it is
    kept as its sequence of UTF-16 code units. *)
Definition text : Type := list N.

(** WhiteSpace and LineTerminator of ECMAScript, the characters [trim]
    strips: TAB, VT, FF, ZWNBSP, the Space_Separator category, and LF, CR,
    LS, PS. *)
Definition is_white_space (c : N) : bool :=
  (bool_decide (c ∈ [0x9; 0xB; 0xC; 0xFEFF; 0x20; 0xA0; 0x1680; 0x202F; 0x205F; 0x3000])
   || (0x2000 <=? c) && (c <=? 0x200A))%N.

Definition is_line_terminator (c : N) : bool :=
  bool_decide (c ∈ [0xA; 0xD; 0x2028; 0x2029]%N).

Definition stripped (c : N) : bool := is_white_space c || is_line_terminator c.

Fixpoint trimStart (s : text) : text :=
  match s with
  | [] => []
  | c :: rest => if stripped c then trimStart rest else s
  end.

Definition trimEnd (s : text) : text := reverse (trimStart (reverse s)).

Definition trim (s : text) : text := trimEnd (trimStart s).

(** A string in a boolean position: only the empty string is falsy. *)
Definition truthy (s : text) : bool :=
  match s with [] => false | _ => true end.

Record Props : Type := mkProps {
  isOpen : bool;
  conversation : option (list (string * string))
}.

Record State : Type := mkState {
  helpfulnessRating : Z;
  hoveredHelpfulStar : Z;
  citationRating : Z;
  hoveredCitationStar : Z;
  feedbackText : text
}.

Definition init : State := mkState 0 0 0 0 [].

Definition setHelpfulnessRating (n : Z) : Handler State unit :=
  modify (λ s, mkState n (hoveredHelpfulStar s) (citationRating s)
                 (hoveredCitationStar s) (feedbackText s)).

Definition setHoveredHelpfulStar (n : Z) : Handler State unit :=
  modify (λ s, mkState (helpfulnessRating s) n (citationRating s)
                 (hoveredCitationStar s) (feedbackText s)).

Definition setCitationRating (n : Z) : Handler State unit :=
  modify (λ s, mkState (helpfulnessRating s) (hoveredHelpfulStar s) n
                 (hoveredCitationStar s) (feedbackText s)).

Definition setHoveredCitationStar (n : Z) : Handler State unit :=
  modify (λ s, mkState (helpfulnessRating s) (hoveredHelpfulStar s)
                 (citationRating s) n (feedbackText s)).

Definition setFeedbackText (t : text) : Handler State unit :=
  modify (λ s, mkState (helpfulnessRating s) (hoveredHelpfulStar s)
                 (citationRating s) (hoveredCitationStar s) t).

(** [helpfulnessRating === 0 && citationRating === 0 && !feedbackText.trim()],
    written three times in the source: the guard of [handleSubmit], the
    [disabled] prop and the style of the submit button. *)
Definition nothing_entered (s : State) : bool :=
  (helpfulnessRating s =? 0)%Z && (citationRating s =? 0)%Z
  && negb (truthy (trim (feedbackText s))).

Definition submit_disabled (s : State) : bool := nothing_entered s.

Definition handleClose : Handler State unit :=
  setHelpfulnessRating 0;;
  setHoveredHelpfulStar 0;;
  setCitationRating 0;;
  setHoveredCitationStar 0;;
  setFeedbackText [];;
  emit OnClose.

(** [conversation || []] *)
Definition conversation_or_empty (p : Props) : list (string * string) :=
  match conversation p with Some c => c | None => [] end.

Definition handleSubmit (p : Props) : Handler State unit :=
  s ← get;
  if nothing_entered s then
    emit (ToastError "Please provide at least one rating or feedback")
  else
    post "/api/feedback"
      (ExtendedBody "extended" (helpfulnessRating s) (citationRating s)
         (feedbackText s) (conversation_or_empty p));;
    emit (ToastSuccess "Thank you for your feedback!");;
    handleClose.

End FeedbackModal.

(** * ChatBar: what the render shows of the selection *)
Module ChatBarView.
Import ChatBar.

(** The chips: [CONTEXT_OPTIONS.filter((o) => selected.includes(o.id))],
    each rendered by its [label]. *)
Definition chip_options (sel : list string) : list ContextOption :=
  filter (λ o, id o ∈ sel) CONTEXT_OPTIONS.

Definition chips (sel : list string) : list string := label <$> chip_options sel.

(** ["Selected: {selected.length}"] in the panel header. *)
Definition selected_counter (s : State) : nat := length (selected s).

(** [allSelected ? "Deselect All" : "Select All"] *)
Definition toggleAll_label (s : State) : string :=
  if allSelected s then "Deselect All" else "Select All".

(** The catalog ids whose checkbox is not ticked, in catalog order. *)
Definition unticked (sel : list string) : list string :=
  filter (λ i, i ∉ sel) catalog_ids.

Definition is_confirm (a : Action) : bool :=
  match a with Confirm => true | _ => false end.

(** The selections handed to [onContextChange] in a trace. *)
Definition context_changes (tr : list effect) : list (list string) :=
  omap (λ e, match e with OnContextChange ids => Some ids | _ => None end) tr.

End ChatBarView.

(** * Onboarding: the controls the two steps render *)
Module OnboardingFlow.
Import Onboarding.

(** The argument of [onCheckedChange]: a boolean or ["indeterminate"]. *)
Inductive CheckedState : Type := Checked | Unchecked | Indeterminate.

(** The [value]s of the [SelectItem]s of the two selects. *)
Definition occupation_values : list string :=
  ["student"; "teacher"; "researcher"; "professional"; "librarian"; "other"].

Definition ageRange_values : list string :=
  ["Under 18"; "18-24"; "25-34"; "35-44"; "45-54"; "55-64"; "65+"].

Inductive Action : Type :=
| CheckedChange (checked : CheckedState)
| ConsentContinueClick
| OccupationChange (v : string)
| AgeRangeChange (v : string)
| DemographicContinueClick.

Definition handle (env : Env) (a : Action) : Handler State unit :=
  match a with
  | CheckedChange checked =>
      (* [setConsentGiven(checked === true)] *)
      setConsentGiven (match checked with Checked => true | _ => false end)
  | ConsentContinueClick => handleConsentContinue env
  | OccupationChange v => setOccupation v
  | AgeRangeChange v => setAgeRange v
  | DemographicContinueClick => handleDemographicContinue env
  end.

(** What the render lets the user do: the consent controls exist under
    [currentStep === 1], the demographic ones under [currentStep === 2], a
    disabled button takes no click, and a select reports one of its items. *)
Definition offered (s : State) (a : Action) : bool :=
  match a with
  | CheckedChange _ => bool_decide (currentStep s = 1%Z)
  | ConsentContinueClick =>
      bool_decide (currentStep s = 1%Z) && negb (consent_disabled s)
  | OccupationChange v =>
      bool_decide (currentStep s = 2%Z) && bool_decide (v ∈ occupation_values)
  | AgeRangeChange v =>
      bool_decide (currentStep s = 2%Z) && bool_decide (v ∈ ageRange_values)
  | DemographicContinueClick =>
      bool_decide (currentStep s = 2%Z) && negb (demographic_disabled s)
  end.

(** A session: each action with the clock and navigator it runs under. *)
Fixpoint run (acts : list (Env * Action)) : Handler State unit :=
  match acts with
  | [] => skip
  | (env, a) :: rest => handle env a;; run rest
  end.

(** Every action of the session was offered by the render it acted on. *)
Fixpoint allowed (acts : list (Env * Action)) (s : State) : bool :=
  match acts with
  | [] => true
  | (env, a) :: rest =>
      offered s a && allowed rest (state_after (handle env a) s)
  end.

Definition is_consent_post (e : effect) : bool :=
  match e with
  | Fetch "/api/onboarding" "POST" (ConsentBody "consent" "accepted" _ _) => true
  | _ => false
  end.

(** Traces made of completed demographics: a post with an occupation and an
    age range taken from the selects, then [onComplete]; any number of times. *)
Fixpoint completions (tr : list effect) : bool :=
  match tr with
  | [] => true
  | Fetch "/api/onboarding" "POST" (DemographicsBody "demographics" occ age _ _)
      :: OnComplete :: rest =>
      bool_decide (occ ∈ occupation_values) && bool_decide (age ∈ ageRange_values)
      && completions rest
  | _ => false
  end.

End OnboardingFlow.

(** * ChatMessage: copy, share and re-ask *)
Module ChatMessageActions.
Import ChatMessage.

(** [navigator.clipboard]: absent, or present with a [writeText] whose
    promise resolves or rejects. *)
Inductive Clipboard : Type := ClipboardMissing | ClipboardResolves | ClipboardRejects.

(** [navigator.share]: falsy, or a function whose call throws, or one whose
    call returns a promise (settled either way: its rejection is caught and
    dropped). *)
Inductive ShareApi : Type := ShareMissing | ShareThrows | ShareReturns.

Record Browser : Type := mkBrowser {
  clipboard : Clipboard;
  share : ShareApi;
  href : string
}.

(** What these three handlers do to the outside; they touch no state.
    [Uncaught] ends a trace: a [TypeError] left the handler. *)
Inductive call : Type :=
| Out (e : effect)
| ClipboardWrite (t : string)
| NativeShare (t : string)
| OnReask (t : string)
| Uncaught.

Definition is_toast (c : call) : bool :=
  match c with Out (ToastSuccess _) | Out (ToastError _) => true | _ => false end.

Definition is_error_toast (c : call) : bool :=
  match c with Out (ToastError _) => true | _ => false end.

Definition is_uncaught (c : call) : bool :=
  match c with Uncaught => true | _ => false end.

Definition clipboard_writes (tr : list call) : list string :=
  omap (λ c, match c with ClipboardWrite t => Some t | _ => None end) tr.

(** [navigator.clipboard.writeText(message.content);
     toast.success("Copied to clipboard")]: the toast does not wait for the
    promise. *)
Definition handleCopy (b : Browser) (m : Message) : list call :=
  match clipboard b with
  | ClipboardMissing => [Uncaught]
  | ClipboardResolves | ClipboardRejects =>
      [ClipboardWrite (content m); Out (ToastSuccess "Copied to clipboard")]
  end.

(** [window.location.href + "\n\n" + shareText] *)
Definition share_fallback_text (b : Browser) (shareText : string) : string :=
  (href b ++ String (Ascii.ascii_of_nat 10) (String (Ascii.ascii_of_nat 10) "") ++ shareText)%string.

Definition handleShare (b : Browser) (m : Message) : list call :=
  let shareText := content m in
  let fallback :=
    match clipboard b with
    | ClipboardMissing => [Uncaught]
    | ClipboardResolves =>
        [ClipboardWrite (share_fallback_text b shareText);
         Out (ToastSuccess "Share text copied to clipboard")]
    | ClipboardRejects =>
        [ClipboardWrite (share_fallback_text b shareText);
         Out (ToastError "Unable to copy share text")]
    end in
  match share b with
  | ShareReturns => [NativeShare shareText; Out (ToastSuccess "Opened share dialog")]
  | ShareThrows => NativeShare shareText :: fallback
  | ShareMissing => fallback
  end.

(** [typeof onReask === "function"] decides between the callback and the
    clipboard; the clipboard branch has a [then] and no [catch]. *)
Definition handleReask (has_onReask : bool) (b : Browser) (m : Message) : list call :=
  if has_onReask then
    [OnReask (content m); Out (ToastSuccess "Message copied to input")]
  else
    match clipboard b with
    | ClipboardMissing => [Uncaught]
    | ClipboardResolves =>
        [ClipboardWrite (content m); Out (ToastSuccess "Message copied to clipboard")]
    | ClipboardRejects => [ClipboardWrite (content m)]
    end.

(** The direction a posted [action] stands for. *)
Definition thumb_of_action (a : string) : option Thumb :=
  if bool_decide (a = "up") then Some up
  else if bool_decide (a = "down") then Some down
  else None.

(** A series of presses on the two thumbs, one render apart. *)
Fixpoint presses (p : Props) (ds : list Thumb) : Handler State unit :=
  match ds with
  | [] => skip
  | d :: rest => handleThumb d p;; presses p rest
  end.

(** The first render after mount: the initial state, then the effect. *)
Definition mounted (p : Props) : State := state_after (syncPrompt p) (init p).

End ChatMessageActions.

(** * FeedbackModal: the stars and a session on the form *)
Module FeedbackModalFlow.
Import FeedbackModal.

(** [[1, 2, 3, 4, 5]] *)
Definition stars : list Z := [1; 2; 3; 4; 5]%Z.

(** [a || b] on numbers: [0] is falsy. *)
Definition js_or (a b : Z) : Z := if (a =? 0)%Z then b else a.

(** [star <= (hoveredStar || rating)] *)
Definition isFilled (star rating hoveredStar : Z) : bool :=
  (star <=? js_or hoveredStar rating)%Z.

Definition filled_stars (rating hoveredStar : Z) : list Z :=
  List.filter (λ star, isFilled star rating hoveredStar) stars.

Inductive Axis : Type := Helpfulness | Citation.

(** The events of the form.  [Rate], [MouseEnter] and [MouseLeave] are the
    three handlers [renderStars] gives each star button; [CloseClick] is
    the backdrop, the X and Cancel, which all run [handleClose]. *)
Inductive Action : Type :=
| Rate (a : Axis) (star : Z)
| MouseEnter (a : Axis) (star : Z)
| MouseLeave (a : Axis)
| TextChange (t : text)
| SubmitClick
| CloseClick.

Definition handle (p : Props) (a : Action) : Handler State unit :=
  match a with
  | Rate Helpfulness star => setHelpfulnessRating star
  | Rate Citation star => setCitationRating star
  | MouseEnter Helpfulness star => setHoveredHelpfulStar star
  | MouseEnter Citation star => setHoveredCitationStar star
  | MouseLeave Helpfulness => setHoveredHelpfulStar 0
  | MouseLeave Citation => setHoveredCitationStar 0
  | TextChange t => setFeedbackText t
  | SubmitClick => handleSubmit p
  | CloseClick => handleClose
  end.

(** Star buttons exist for the five stars only. *)
Definition offered (a : Action) : Prop :=
  match a with
  | Rate _ star | MouseEnter _ star => star ∈ stars
  | _ => True
  end.

Fixpoint run (p : Props) (acts : list Action) : Handler State unit :=
  match acts with
  | [] => skip
  | a :: rest => handle p a;; run p rest
  end.

(** Actions that neither submit nor close. *)
Definition is_edit (a : Action) : bool :=
  match a with SubmitClick | CloseClick => false | _ => true end.

(** A post of extended feedback that says something: ratings on the scale,
    and a star or a text that is not blank. *)
Definition meaningful_post (conv : list (string * string)) (e : effect) : bool :=
  match e with
  | Fetch "/api/feedback" "POST" (ExtendedBody "extended" h c t conv') =>
      bool_decide (0 ≤ h ≤ 5)%Z && bool_decide (0 ≤ c ≤ 5)%Z
      && ((0 <? h)%Z || (0 <? c)%Z || truthy (trim t))
      && bool_decide (conv' = conv)
  | Fetch _ _ _ => false
  | _ => true
  end.

Definition in_range (s : State) : Prop :=
  (0 ≤ helpfulnessRating s ≤ 5)%Z ∧ (0 ≤ hoveredHelpfulStar s ≤ 5)%Z
  ∧ (0 ≤ citationRating s ≤ 5)%Z ∧ (0 ≤ hoveredCitationStar s ≤ 5)%Z.

End FeedbackModalFlow.

(** * ChatBar: every call its event handlers make *)
Module ChatBarDom.
Import ChatBar.

(** The calls of [effect], and the two that only the composer makes: the
    required [onChange] prop and [stopPropagation] on the event. *)
Inductive call : Type :=
| Out (e : effect)
| OnChange (v : string)
| StopPropagation.

(** An event on the composer: typing in the textarea, which runs
    [onChange(e.target.value)] and touches no state cell ([value] belongs
    to the parent), or one of the actions.  A document listener that the
    same DOM event reaches afterwards is the next event of the sequence
    ([OutsideClick], [KeyDownDocument]). *)
Inductive Event : Type :=
| TextareaChange (v : string)
| Act (a : Action).

(** The Books button runs [e.stopPropagation()] before [setOpen((v) => !v)];
    every other action is its handler as it stands. *)
Definition dispatch (p : Props) (ev : Event) (s : State) : State * list call :=
  match ev with
  | TextareaChange v => (s, [OnChange v])
  | Act BooksClick =>
      (state_after booksClick s, StopPropagation :: (Out <$> trace_of booksClick s))
  | Act a => (state_after (handle p a) s, Out <$> trace_of (handle p a) s)
  end.

Fixpoint session (p : Props) (evs : list Event) (s : State) : State * list call :=
  match evs with
  | [] => (s, [])
  | ev :: rest =>
      let '(s1, t1) := dispatch p ev s in
      let '(s2, t2) := session p rest s1 in
      (s2, t1 ++ t2)
  end.

(** The props of the composer and the two event methods. *)
Definition prop_or_event_method (c : call) : Prop :=
  match c with
  | OnChange _ | StopPropagation => True
  | Out OnSend | Out OnStop | Out PreventDefault | Out (OnContextChange _) => True
  | Out _ => False
  end.

Definition is_fetch_or_toast (c : call) : bool :=
  match c with
  | Out (Fetch _ _ _) | Out (ToastSuccess _) | Out (ToastError _) => true
  | _ => false
  end.

End ChatBarDom.

(** * Properties *)

(** ** Sequencing of handlers *)
Section handler_facts.
Context {S : Type}.
Implicit Types (m k : Handler S unit) (s : S).

Lemma state_after_seq m k s :
  state_after (m;; k) s = state_after k (state_after m s).
Proof.
  unfold state_after, exec, mbind, handler_bind, h_bind.
  destruct (m s) as [[[] s1] t1]; simpl.
  destruct (k s1) as [[[] s2] t2]; reflexivity.
Qed.

Lemma trace_of_seq m k s :
  trace_of (m;; k) s = trace_of m s ++ trace_of k (state_after m s).
Proof.
  unfold trace_of, state_after, exec, mbind, handler_bind, h_bind.
  destruct (m s) as [[[] s1] t1]; simpl.
  destruct (k s1) as [[[] s2] t2]; reflexivity.
Qed.

Lemma count_app p (t1 t2 : list effect) :
  count p (t1 ++ t2) = (count p t1 + count p t2)%nat.
Proof. unfold count. rewrite List.filter_app. apply length_app. Qed.
End handler_facts.

(** Unfold the plumbing of a handler down to the state and trace it returns. *)
Ltac step_handler :=
  cbv [state_after trace_of exec mbind handler_bind h_bind mret handler_ret
       h_ret get modify emit skip post fst snd].

(** ** The context picker *)
Module ChatBarFacts.
Import ChatBar.

Lemma catalog_has_twelve : length catalog_ids = 12%nat.
Proof. reflexivity. Qed.

Lemma catalog_NoDup : NoDup catalog_ids.
Proof. apply (bool_decide_unpack _). vm_compute. exact I. Qed.

Lemma toggle_present i l : i ∈ l → toggle i l = filter (λ x, x ≠ i) l.
Proof. intros Hin. unfold toggle. by rewrite bool_decide_eq_true_2. Qed.

Lemma toggle_absent i l : i ∉ l → toggle i l = l ++ [i].
Proof. intros Hin. unfold toggle. by rewrite bool_decide_eq_false_2. Qed.

Lemma filter_absent i (l : list string) : i ∉ l → filter (λ x, x ≠ i) l = l.
Proof.
  induction l as [|x l IH]; [done |].
  intros [Hne Hin]%not_elem_of_cons.
  rewrite filter_cons_True by done. f_equal. by apply IH.
Qed.

Lemma toggle_twice_absent i l : i ∉ l → toggle i (toggle i l) = l.
Proof.
  intros Hin. rewrite (toggle_absent i l Hin).
  rewrite toggle_present by set_solver.
  rewrite filter_app, filter_cons_False, filter_nil, app_nil_r by (by intros Hne).
  by apply filter_absent.
Qed.

Lemma toggle_twice_present i l :
  i ∈ l → toggle i (toggle i l) = filter (λ x, x ≠ i) l ++ [i].
Proof.
  intros Hin. rewrite (toggle_present i l Hin).
  apply toggle_absent. rewrite list_elem_of_filter. intros [Hne _]. by apply Hne.
Qed.

Lemma toggle_elem i j l : j ∈ toggle i (toggle i l) ↔ j ∈ l.
Proof.
  destruct (decide (i ∈ l)) as [Hin|Hin].
  - rewrite toggle_twice_present by done.
    rewrite elem_of_app, list_elem_of_filter, list_elem_of_singleton.
    destruct (decide (j = i)) as [->|Hne]; [by split; [|right] |].
    split; [by intros [[_ Hj]|Hj] | by left].
  - by rewrite toggle_twice_absent.
Qed.

Lemma toggle_NoDup i l : NoDup l → NoDup (toggle i l).
Proof.
  intros Hnd. unfold toggle. case_bool_decide as Hin.
  - by apply NoDup_filter.
  - apply NoDup_app. split_and!; [done | | apply NoDup_singleton].
    intros x Hx Hx'. apply list_elem_of_singleton in Hx'. by subst.
Qed.

Lemma toggle_subseteq i l : i ∈ catalog_ids → l ⊆ catalog_ids → toggle i l ⊆ catalog_ids.
Proof.
  intros Hi Hl x. unfold toggle. case_bool_decide.
  - rewrite list_elem_of_filter. intros [_ Hx]. by apply Hl.
  - rewrite elem_of_app, list_elem_of_singleton. intros [Hx | ->]; [by apply Hl | done].
Qed.

Lemma toggle_twice_Permutation i l : NoDup l → toggle i (toggle i l) ≡ₚ l.
Proof.
  intros Hnd. apply NoDup_Permutation; [by do 2 apply toggle_NoDup | done |].
  intros j. apply toggle_elem.
Qed.

(** What each action does to the selection. *)
Lemma selected_handle p a s :
  selected (state_after (handle p a) s) =
    match a with
    | ToggleOption i => toggle i (selected s)
    | ToggleAll => if allSelected s then [] else catalog_ids
    | _ => selected s
    end.
Proof.
  destruct a as [i| | |e|k| |e|]; try reflexivity; unfold handle.
  - unfold confirm. destruct (has_onContextChange p); reflexivity.
  - unfold handleClick. step_handler.
    destruct (open s && wrapper_mounted e && negb (target_in_wrapper e)); reflexivity.
  - unfold handleKey. case_bool_decide; reflexivity.
  - unfold onKeyDown.
    destruct (bool_decide (key e = "Enter") && negb (shiftKey e)); reflexivity.
  - unfold trailingClick.
    destruct (isStreaming p), (has_onStop p); reflexivity.
Qed.

Lemma handle_well_formed p a s :
  offered a → well_formed (selected s) →
  well_formed (selected (state_after (handle p a) s)).
Proof.
  intros Ha [Hnd Hsub]. rewrite selected_handle.
  destruct a; try (by split).
  - split; [by apply toggle_NoDup | by apply toggle_subseteq].
  - destruct (allSelected s); split;
      [apply NoDup_nil_2 | by intros x Hx%elem_of_nil | apply catalog_NoDup | done].
Qed.

Lemma run_well_formed p acts s :
  Forall offered acts → well_formed (selected s) →
  well_formed (selected (state_after (run p acts) s)).
Proof.
  intros Hacts. revert s.
  induction Hacts as [|a acts Ha _ IH]; intros s Hs; [done |].
  simpl. rewrite state_after_seq. apply IH. by apply handle_well_formed.
Qed.

Lemma init_well_formed : well_formed (selected init).
Proof.
  split; [apply (bool_decide_unpack _); vm_compute; exact I |].
  intros x Hx. revert x Hx.
  apply (proj1 (Forall_forall (λ x, x ∈ catalog_ids) (selected init))).
  apply (bool_decide_unpack _); vm_compute; exact I.
Qed.

Lemma reachable_well_formed s : reachable s → well_formed (selected s).
Proof.
  intros (p & acts & Hacts & ->). apply run_well_formed; [done | apply init_well_formed].
Qed.

Lemma init_reachable : reachable init.
Proof. exists (mkProps false false false), []. split; [constructor | reflexivity]. Qed.

(** With a well-formed selection, the length test of [allSelected] is the
    test that every catalog id is selected. *)
Lemma full_Permutation l :
  well_formed l → length l = length CONTEXT_OPTIONS → l ≡ₚ catalog_ids.
Proof.
  intros [Hnd Hsub] Hlen. apply submseteq_length_Permutation.
  - by apply NoDup_submseteq.
  - rewrite Hlen. change (length CONTEXT_OPTIONS) with (length catalog_ids). done.
Qed.

Lemma allSelected_spec s :
  well_formed (selected s) → allSelected s = true ↔ catalog_ids ⊆ selected s.
Proof.
  intros Hwf. unfold allSelected. rewrite bool_decide_eq_true. split.
  - intros Hlen x Hx. by rewrite (full_Permutation _ Hwf Hlen).
  - intros Hsup. destruct Hwf as [Hnd Hsub].
    change (length CONTEXT_OPTIONS) with (length catalog_ids).
    apply Nat.le_antisymm.
    + apply submseteq_length, NoDup_submseteq; done.
    + apply submseteq_length, NoDup_submseteq; [apply catalog_NoDup | done].
Qed.

Lemma selected_toggleAll s :
  selected (state_after toggleAll s) = if allSelected s then [] else catalog_ids.
Proof. reflexivity. Qed.

Lemma selected_toggleAll_twice s :
  selected (state_after toggleAll (state_after toggleAll s)) =
    if allSelected s then catalog_ids else [].
Proof.
  rewrite selected_toggleAll. unfold allSelected at 1.
  rewrite selected_toggleAll. destruct (allSelected s); reflexivity.
Qed.

(** C1, as stated, fails on the default selection: the first toggle-all
    selects the whole catalog, the second clears it, and the two ids that
    were selected at the start are gone. *)
Lemma toggleAll_twice_loses_default :
  selected init = ["blackstone -- commentaries v1"; "blackstone -- commentaries v2"]
  ∧ selected (state_after toggleAll init) = catalog_ids
  ∧ selected (state_after toggleAll (state_after toggleAll init)) = []
  ∧ ¬ (selected (state_after toggleAll (state_after toggleAll init)) ≡ₚ selected init).
Proof.
  split_and!; try reflexivity.
  intros Hperm. apply Permutation_length in Hperm. discriminate Hperm.
Qed.

(** C1, amended: toggle-all clears the selection when every catalog id is
    selected and selects the whole catalog otherwise; two toggle-alls in
    succession end in the whole catalog when every id was selected and in the
    empty selection otherwise, so they give back the selection they started
    from exactly when it was empty or the whole catalog. *)
Theorem toggleAll_twice s :
  well_formed (selected s) →
  let s1 := state_after toggleAll s in
  let s2 := state_after toggleAll s1 in
  (allSelected s = true ↔ catalog_ids ⊆ selected s)
  ∧ selected s1 = (if allSelected s then [] else catalog_ids)
  ∧ selected s2 = (if allSelected s then catalog_ids else [])
  ∧ (selected s2 ≡ₚ selected s ↔ selected s = [] ∨ allSelected s = true).
Proof.
  intros Hwf s1 s2. split_and!.
  - by apply allSelected_spec.
  - apply selected_toggleAll.
  - apply selected_toggleAll_twice.
  - unfold s2, s1. rewrite selected_toggleAll_twice.
    destruct (allSelected s) eqn:Hall.
    + split; [by right |]. intros _. symmetry. apply full_Permutation; [done |].
      by apply bool_decide_eq_true in Hall.
    + split.
      * intros Hperm. left. symmetry in Hperm. by apply Permutation_nil_r in Hperm.
      * intros [-> | ?]; [done | discriminate].
Qed.

Lemma toggleAll_twice_on_empty :
  well_formed (selected (mkState true []))
  ∧ selected (state_after toggleAll (state_after toggleAll (mkState true [])))
      ≡ₚ selected (mkState true []).
Proof.
  assert (Hwf : well_formed (selected (mkState true []))).
  { split; [apply NoDup_nil_2 | intros x Hx; inversion Hx]. }
  split; [exact Hwf |].
  apply (proj2 (proj2 (proj2 (toggleAll_twice (mkState true []) Hwf)))).
  left. reflexivity.
Defined.

(** C7: on a reachable selection, toggling one id twice gives back the same
    set of ids (a permutation of the selection; the id moves to the end when
    it was selected), and the panel stays as it was. *)
Theorem toggleOption_involution s i :
  reachable s →
  let s2 := state_after (toggleOption i) (state_after (toggleOption i) s) in
  selected s2 ≡ₚ selected s
  ∧ list_to_set (selected s2) =@{gset string} list_to_set (selected s)
  ∧ open s2 = open s.
Proof.
  intros Hs s2.
  assert (Hperm : selected s2 ≡ₚ selected s).
  { apply toggle_twice_Permutation. by apply reachable_well_formed. }
  split_and!; [done | | done].
  apply set_eq. intros x. rewrite !elem_of_list_to_set. by rewrite Hperm.
Qed.

(** The array itself is not restored: a selected id that is toggled twice
    comes back at the end. *)
Example toggle_twice_reorders :
  selected (state_after (toggleOption "blackstone -- commentaries v1")
              (state_after (toggleOption "blackstone -- commentaries v1") init))
  = ["blackstone -- commentaries v2"; "blackstone -- commentaries v1"].
Proof. reflexivity. Qed.

Lemma toggleOption_involution_on_default :
  reachable init
  ∧ selected (state_after (toggleOption "blackstone -- commentaries v1")
                (state_after (toggleOption "blackstone -- commentaries v1") init))
      ≡ₚ selected init.
Proof.
  split; [exact init_reachable |].
  exact (proj1 (toggleOption_involution init "blackstone -- commentaries v1" init_reachable)).
Defined.

(** C8: the selection starts as the first two catalog ids, the catalog has
    twelve distinct ids, and after any sequence of actions on the composer
    the selection lists catalog ids without repeats. *)
Theorem selection_invariant p acts :
  Forall offered acts →
  selected init = take 2 catalog_ids
  ∧ length catalog_ids = 12%nat
  ∧ NoDup catalog_ids
  ∧ NoDup (selected (state_after (run p acts) init))
  ∧ selected (state_after (run p acts) init) ⊆ catalog_ids.
Proof.
  intros Hacts. split_and!; [reflexivity | reflexivity | apply catalog_NoDup | |];
    apply (run_well_formed p acts init Hacts init_well_formed).
Qed.

Lemma selection_invariant_example :
  Forall offered [ToggleOption "Vattel -- The Law of Nations"; ToggleAll;
                  ToggleAll; ToggleOption "Locke -- Second Treatise of Government";
                  Confirm]
  ∧ NoDup (selected (state_after
      (run (mkProps true false false)
         [ToggleOption "Vattel -- The Law of Nations"; ToggleAll;
          ToggleAll; ToggleOption "Locke -- Second Treatise of Government";
          Confirm]) init)).
Proof.
  assert (Hacts : Forall offered
            [ToggleOption "Vattel -- The Law of Nations"; ToggleAll;
             ToggleAll; ToggleOption "Locke -- Second Treatise of Government";
             Confirm]).
  { repeat constructor; apply (bool_decide_unpack _); vm_compute; exact I. }
  split; [exact Hacts |].
  exact (proj1 (proj2 (proj2 (proj2
    (selection_invariant (mkProps true false false) _ Hacts))))).
Defined.

(** Toggles leave no trace at all. *)
Lemma trace_of_toggles p acts s :
  forallb is_toggle acts = true → trace_of (run p acts) s = [].
Proof.
  revert s. induction acts as [|a acts IH]; intros s Hacts; [reflexivity |].
  apply andb_prop in Hacts as [Ha Hrest].
  simpl. rewrite trace_of_seq, IH by done.
  destruct a; try discriminate Ha; reflexivity.
Qed.

(** The parent hears of the selection only through [confirm]. *)
Lemma trace_without_confirm p acts s :
  Confirm ∉ acts → count is_onContextChange (trace_of (run p acts) s) = 0%nat.
Proof.
  revert s. induction acts as [|a acts IH]; intros s Hacts; [reflexivity |].
  apply not_elem_of_cons in Hacts as [Ha Hrest].
  simpl. rewrite trace_of_seq, count_app, IH by done.
  rewrite Nat.add_0_r. destruct a as [i| | |e|k| |e|]; try reflexivity; unfold handle.
  - congruence.
  - unfold handleClick. step_handler.
    destruct (open s && wrapper_mounted e && negb (target_in_wrapper e)); reflexivity.
  - unfold handleKey. case_bool_decide; reflexivity.
  - unfold onKeyDown.
    destruct (bool_decide (key e = "Enter") && negb (shiftKey e)); reflexivity.
  - unfold trailingClick. destruct (isStreaming p), (has_onStop p); reflexivity.
Qed.

(** C5, as stated, fails for a composer that was not passed the optional
    [onContextChange] prop: Confirm closes the panel and calls nothing, so
    the callback is not called exactly once. *)
Lemma confirm_without_prop_calls_nothing :
  exec (confirm (mkProps false false false)) (mkState true initial_selected)
  = (mkState false initial_selected, [])
  ∧ count is_onContextChange
      (trace_of (confirm (mkProps false false false)) (mkState true initial_selected))
    ≠ 1%nat.
Proof. split; [reflexivity | discriminate]. Qed.

(** C5, amended: Confirm closes the panel and, when the parent passed the
    optional [onContextChange] prop, calls it exactly once with the current
    selection; when the prop was not passed it calls nothing.  A run of
    toggle-one and toggle-all actions of any length calls nothing. *)
Theorem confirm_propagates_toggles_do_not p s acts s0 :
  forallb is_toggle acts = true →
  exec (confirm p) s
  = (mkState false (selected s),
     if has_onContextChange p then [OnContextChange (selected s)] else [])
  ∧ count is_onContextChange (trace_of (confirm p) s)
    = (if has_onContextChange p then 1 else 0)%nat
  ∧ trace_of (run p acts) s0 = []
  ∧ count is_onContextChange (trace_of (run p acts) s0) = 0%nat.
Proof.
  intros Hacts.
  assert (Hconfirm : exec (confirm p) s
            = (mkState false (selected s),
               if has_onContextChange p then [OnContextChange (selected s)] else [])).
  { unfold confirm. step_handler. destruct (has_onContextChange p); reflexivity. }
  split_and!.
  - exact Hconfirm.
  - unfold trace_of. rewrite Hconfirm. destruct (has_onContextChange p); reflexivity.
  - by apply trace_of_toggles.
  - by rewrite trace_of_toggles.
Qed.

Lemma confirm_after_select_all :
  forallb is_toggle [ToggleAll; ToggleOption "Rousseau -- The Social Contract"] = true
  ∧ exec (confirm (mkProps true false false)) (mkState true catalog_ids)
    = (mkState false catalog_ids, [OnContextChange catalog_ids])
  ∧ count is_onContextChange
      (trace_of (confirm (mkProps true false false)) (mkState true catalog_ids)) = 1%nat
  ∧ trace_of (run (mkProps true false false)
                [ToggleAll; ToggleOption "Rousseau -- The Social Contract"]) init = [].
Proof.
  split; [reflexivity |].
  pose proof (confirm_propagates_toggles_do_not (mkProps true false false)
                (mkState true catalog_ids)
                [ToggleAll; ToggleOption "Rousseau -- The Social Contract"]
                init eq_refl) as H.
  split; [exact (proj1 H) |].
  split; [exact (proj1 (proj2 H)) | exact (proj1 (proj2 (proj2 H)))].
Defined.

(** Without the prop, [onContextChange?.(selected)] calls nothing. *)
Lemma confirm_without_callback p s :
  has_onContextChange p = false → exec (confirm p) s = (mkState false (selected s), []).
Proof. intros Hcb. unfold confirm. step_handler. rewrite Hcb. reflexivity. Qed.

(** C6: a click outside the wrapper while the panel is open, and the Escape
    key, close the panel, call nothing, and keep [selected]; the Books
    button then reopens the panel on that same selection. *)
Theorem close_without_confirm s e :
  open s = true → wrapper_mounted e = true → target_in_wrapper e = false →
  exec (handleClick e) s = (mkState false (selected s), [])
  ∧ exec (handleKey "Escape") s = (mkState false (selected s), [])
  ∧ exec booksClick (mkState false (selected s)) = (mkState true (selected s), []).
Proof.
  intros Hopen Hmounted Houtside. split_and!; try reflexivity.
  unfold handleClick. step_handler. rewrite Hopen, Hmounted, Houtside. reflexivity.
Qed.

Lemma close_without_confirm_example :
  exec (handleClick (mkClick true false)) (mkState true ["Hunton -- A Treatise of Monarchy"])
  = (mkState false ["Hunton -- A Treatise of Monarchy"], []).
Proof.
  exact (proj1 (close_without_confirm
                  (mkState true ["Hunton -- A Treatise of Monarchy"])
                  (mkClick true false) eq_refl eq_refl eq_refl)).
Defined.

(** C9: on Enter, the textarea handler prevents the default and calls
    [onSend] once when Shift is up, and does nothing when Shift is down. *)
Theorem enter_sends_shift_enter_does_not s shift :
  exec (onKeyDown (mkKey "Enter" shift)) s
  = (s, if shift then [] else [PreventDefault; OnSend])
  ∧ count is_onSend (trace_of (onKeyDown (mkKey "Enter" shift)) s)
    = (if shift then 0 else 1)%nat
  ∧ count is_preventDefault (trace_of (onKeyDown (mkKey "Enter" shift)) s)
    = (if shift then 0 else 1)%nat.
Proof. destruct s, shift; split_and!; reflexivity. Qed.

(** Any other key leaves the default alone and sends nothing. *)
Lemma other_key_ignored s e : key e ≠ "Enter" → exec (onKeyDown e) s = (s, []).
Proof.
  intros Hkey. unfold onKeyDown. rewrite bool_decide_eq_false_2 by done.
  destruct s; reflexivity.
Qed.

End ChatBarFacts.

(** ** Onboarding *)
Module OnboardingFacts.
Import Onboarding.

(** C10: whatever [occupation] and [ageRange] hold, the demographics handler
    posts one demographics event and then calls [onComplete] once; it has no
    guard of its own, the only gate being the [disabled] prop of its button.
    The consent handler is guarded: it does nothing unless [consentGiven]. *)
Theorem demographic_continue_unguarded env s :
  exec (handleDemographicContinue env) s
  = (s, [Fetch "/api/onboarding" "POST"
           (DemographicsBody "demographics" (occupation s) (ageRange s)
              (now_iso env) (userAgent_of env));
         OnComplete])
  ∧ count is_fetch (trace_of (handleDemographicContinue env) s) = 1%nat
  ∧ count is_onComplete (trace_of (handleDemographicContinue env) s) = 1%nat
  ∧ exec (handleConsentContinue env) s
    = (if consentGiven s
       then (mkState 2 true (occupation s) (ageRange s),
             [Fetch "/api/onboarding" "POST"
                (ConsentBody "consent" "accepted" (now_iso env) (userAgent_of env))])
       else (s, []))
  ∧ demographic_disabled s
    = bool_decide (occupation s = "") || bool_decide (ageRange s = "").
Proof.
  destruct s as [step consent occ age]. split_and!; try reflexivity.
  - destruct consent; reflexivity.
  - unfold demographic_disabled, truthy; simpl. by rewrite !negb_involutive.
Qed.

(** Invoked on the empty fields of a fresh mount, behind the disabled
    button: the post goes out with two empty strings and [onComplete] runs. *)
Example demographic_continue_on_empty_fields :
  exec (handleDemographicContinue (mkEnv "2025-01-01T00:00:00.000Z" None)) init
  = (init, [Fetch "/api/onboarding" "POST"
              (DemographicsBody "demographics" "" "" "2025-01-01T00:00:00.000Z" "");
            OnComplete])
  ∧ demographic_disabled init = true
  ∧ exec (handleConsentContinue (mkEnv "2025-01-01T00:00:00.000Z" None)) init
    = (init, []).
Proof. split_and!; reflexivity. Qed.

End OnboardingFacts.

(** ** Thumbs on a message *)
Module ChatMessageFacts.
Import ChatMessage.

(** Hiding [showPrompt] hides the inline prompt, whatever the props. *)
Lemma prompt_hidden p t : prompt_rendered p (mkState t false) = false.
Proof.
  unfold prompt_rendered. destruct (role (message p)); [reflexivity |].
  simpl. by rewrite andb_false_r.
Qed.

(** C3: pressing the thumb that is already active clears [thumbsState],
    hides the inline prompt and posts exactly one feedback event, a "remove"
    carrying the message id; so pressing a thumb that was not active and
    pressing it again ends with [thumbsState] back at [null]. *)
Theorem thumb_toggle_off p d t0 sp :
  t0 ≠ Some d →
  exec (handleThumb d p) (mkState (Some d) sp)
  = (mkState None false,
     [ToastSuccess "Feedback removed";
      Fetch "/api/feedback" "POST"
        (ThumbsRemoveBody "remove"
           (match d with up => "thumbs_up" | down => "thumbs_down" end)
           (id (message p)))])
  ∧ feedback_actions (trace_of (handleThumb d p) (mkState (Some d) sp)) = ["remove"]
  ∧ count is_fetch (trace_of (handleThumb d p) (mkState (Some d) sp)) = 1%nat
  ∧ prompt_rendered p (state_after (handleThumb d p) (mkState (Some d) sp)) = false
  ∧ thumbsState (state_after (handleThumb d p) (mkState t0 sp)) = Some d
  ∧ state_after (handleThumb d p) (state_after (handleThumb d p) (mkState t0 sp))
    = mkState None false.
Proof.
  intros Hfresh. split_and!.
  - destruct d; reflexivity.
  - destruct d; reflexivity.
  - destruct d; reflexivity.
  - replace (state_after (handleThumb d p) (mkState (Some d) sp))
      with (mkState None false) by (destruct d; reflexivity).
    apply prompt_hidden.
  - destruct d, t0 as [[]|]; try reflexivity; congruence.
  - destruct d, t0 as [[]|]; try reflexivity; congruence.
Qed.

Lemma thumb_round_trip_from_null :
  None ≠ Some up
  ∧ thumbsState
      (state_after (handleThumbsUp (mkProps (mkMessage "m-17" assistant "See Book I.") true true None true))
         (state_after (handleThumbsUp (mkProps (mkMessage "m-17" assistant "See Book I.") true true None true))
            (mkState None false))) = None.
Proof.
  assert (Hfresh : @None Thumb ≠ Some up) by discriminate.
  split; [exact Hfresh |].
  exact (f_equal thumbsState
           (proj2 (proj2 (proj2 (proj2 (proj2
             (thumb_toggle_off
                (mkProps (mkMessage "m-17" assistant "See Book I.") true true None true)
                up None false Hfresh))))))).
Defined.

(** C4: pressing one thumb while the other is active overwrites
    [thumbsState] with the new direction and posts exactly one feedback
    event, an "up" or "down" with the message id and content; no "remove"
    goes out for the thumb that was active. *)
Theorem thumb_switch p d d' sp :
  d' ≠ d →
  exec (handleThumb d p) (mkState (Some d') sp)
  = (mkState (Some d) true,
     [ToastSuccess (match d with
                    | up => "Thanks for the positive feedback!"
                    | down => "Thanks for your feedback"
                    end);
      Fetch "/api/feedback" "POST"
        (ThumbsBody (match d with up => "up" | down => "down" end)
           (id (message p)) (content (message p)))])
  ∧ feedback_actions (trace_of (handleThumb d p) (mkState (Some d') sp))
    = [match d with up => "up" | down => "down" end]
  ∧ ("remove" ∉ feedback_actions (trace_of (handleThumb d p) (mkState (Some d') sp)))
  ∧ count is_fetch (trace_of (handleThumb d p) (mkState (Some d') sp)) = 1%nat.
Proof.
  intros Hne.
  destruct d, d'; try congruence; split_and!; try reflexivity;
    intros Hin; apply list_elem_of_singleton in Hin; discriminate Hin.
Qed.

Lemma thumb_switch_up_to_down :
  up ≠ down
  ∧ exec (handleThumbsDown (mkProps (mkMessage "m-17" assistant "See Book I.") true true None true))
      (mkState (Some up) true)
    = (mkState (Some down) true,
       [ToastSuccess "Thanks for your feedback";
        Fetch "/api/feedback" "POST" (ThumbsBody "down" "m-17" "See Book I.")]).
Proof.
  assert (Hne : up ≠ down) by discriminate.
  split; [exact Hne |].
  exact (proj1 (thumb_switch
                  (mkProps (mkMessage "m-17" assistant "See Book I.") true true None true)
                  down up true Hne)).
Defined.

End ChatMessageFacts.

(** ** The feedback modal *)
Module FeedbackModalFacts.
Import FeedbackModal.

Lemma truthy_false (t : text) : truthy t = false ↔ t = [].
Proof. destruct t; split; intros H; done. Qed.

Lemma nothing_entered_spec s :
  nothing_entered s = true
  ↔ helpfulnessRating s = 0%Z ∧ citationRating s = 0%Z ∧ trim (feedbackText s) = [].
Proof.
  unfold nothing_entered.
  rewrite !andb_true_iff, !Z.eqb_eq, negb_true_iff, truthy_false. tauto.
Qed.

(** C2: the submit button is disabled exactly when both ratings are 0 and
    the trimmed text is empty; [handleSubmit] invoked in that state shows an
    error toast and does nothing else: no post, no field changed, no
    [onClose].  In every other state it posts one extended event, shows the
    thanks, resets the fields and closes. *)
Theorem submit_gate p s :
  (submit_disabled s = true
   ↔ helpfulnessRating s = 0%Z ∧ citationRating s = 0%Z ∧ trim (feedbackText s) = [])
  ∧ exec (handleSubmit p) s
    = (if submit_disabled s
       then (s, [ToastError "Please provide at least one rating or feedback"])
       else (init,
             [Fetch "/api/feedback" "POST"
                (ExtendedBody "extended" (helpfulnessRating s) (citationRating s)
                   (feedbackText s) (conversation_or_empty p));
              ToastSuccess "Thank you for your feedback!";
              OnClose]))
  ∧ (if submit_disabled s
     then count is_fetch (trace_of (handleSubmit p) s) = 0%nat
          ∧ (OnClose ∉ trace_of (handleSubmit p) s)
          ∧ state_after (handleSubmit p) s = s
     else count is_fetch (trace_of (handleSubmit p) s) = 1%nat).
Proof.
  assert (Hexec : exec (handleSubmit p) s
    = (if submit_disabled s
       then (s, [ToastError "Please provide at least one rating or feedback"])
       else (init,
             [Fetch "/api/feedback" "POST"
                (ExtendedBody "extended" (helpfulnessRating s) (citationRating s)
                   (feedbackText s) (conversation_or_empty p));
              ToastSuccess "Thank you for your feedback!";
              OnClose]))).
  { unfold submit_disabled, handleSubmit. step_handler.
    destruct (nothing_entered s); reflexivity. }
  split_and!.
  - apply nothing_entered_spec.
  - exact Hexec.
  - unfold trace_of, state_after. rewrite Hexec.
    destruct (submit_disabled s); [split_and! |]; try reflexivity.
    simpl. intros Hin. apply list_elem_of_singleton in Hin. discriminate Hin.
Qed.

(** Blank text with no stars: disabled, and a forced submit only toasts. *)
Example submit_on_blank_text :
  submit_disabled (mkState 0 4 0 2 [0x20; 0xA; 0x3000]%N) = true
  ∧ exec (handleSubmit (mkProps true None)) (mkState 0 4 0 2 [0x20; 0xA; 0x3000]%N)
    = (mkState 0 4 0 2 [0x20; 0xA; 0x3000]%N,
       [ToastError "Please provide at least one rating or feedback"]).
Proof. split; reflexivity. Qed.

(** One star is enough. *)
Example submit_with_one_star :
  submit_disabled (mkState 0 0 3 0 []) = false
  ∧ exec (handleSubmit (mkProps true (Some [("user", "hello")]))) (mkState 0 0 3 0 [])
    = (init,
       [Fetch "/api/feedback" "POST" (ExtendedBody "extended" 0 3 [] [("user", "hello")]);
        ToastSuccess "Thank you for your feedback!"; OnClose]).
Proof. split; reflexivity. Qed.

End FeedbackModalFacts.

(** ** The context picker: display, composition, and what reaches the parent *)
Module ChatBarViewFacts.
Import ChatBar ChatBarView ChatBarFacts.

Lemma toggle_elem_of i j l :
  j ∈ toggle i l ↔ (j ∈ l ∧ j ≠ i) ∨ (j = i ∧ i ∉ l).
Proof.
  destruct (decide (i ∈ l)) as [Hin|Hin].
  - rewrite toggle_present, list_elem_of_filter by done. split.
    + intros [Hne Hj]. by left.
    + intros [[Hj Hne] | [_ Hout]]; [done | by destruct Hout].
  - rewrite toggle_absent, elem_of_app, list_elem_of_singleton by done. split.
    + intros [Hj | ->]; [left | by right].
      split; [done | intros ->; by destruct Hin].
    + intros [[Hj _] | [-> _]]; [by left | by right].
Qed.

(** X1: toggle-one flips the membership of its id and of no other: an id is
    in the new selection when it was selected and is not the toggled one, or
    is the toggled one and was not selected.  For every array, also one with
    repeats. *)
Theorem toggleOption_flips_one i j s :
  j ∈ selected (state_after (toggleOption i) s)
  ↔ (j ∈ selected s ∧ j ≠ i) ∨ (j = i ∧ i ∉ selected s).
Proof. apply toggle_elem_of. Qed.

Lemma chips_ext l l' : (∀ x, x ∈ l ↔ x ∈ l') → chips l = chips l'.
Proof.
  intros Hext. unfold chips, chip_options. f_equal.
  apply list_filter_iff. intros o. apply Hext.
Qed.

(** X2: the chips are computed from the catalog, so they only depend on
    which ids are selected: toggling an id twice leaves the row of chips as
    it was, although the array behind it may have been reordered. *)
Theorem chips_unchanged_by_double_toggle i s :
  chips (selected (state_after (toggleOption i) (state_after (toggleOption i) s)))
  = chips (selected s).
Proof. apply chips_ext. intros x. apply toggle_elem. Qed.

Lemma fmap_filter_id (sel : list string) (opts : list ContextOption) :
  id <$> filter (λ o, id o ∈ sel) opts = filter (λ i, i ∈ sel) (id <$> opts).
Proof.
  induction opts as [|o opts IH]; [reflexivity |].
  rewrite fmap_cons. destruct (decide (id o ∈ sel)) as [Hin|Hin].
  - rewrite !filter_cons_True by done. rewrite fmap_cons. by f_equal.
  - rewrite !filter_cons_False by done. done.
Qed.

Lemma chip_ids_Permutation sel :
  well_formed sel → id <$> chip_options sel ≡ₚ sel.
Proof.
  intros [Hnd Hsub]. unfold chip_options. rewrite fmap_filter_id.
  apply NoDup_Permutation; [apply NoDup_filter, catalog_NoDup | done |].
  intros x. rewrite list_elem_of_filter. split; [by intros [? _] |].
  intros Hx. split; [done | by apply Hsub].
Qed.

(** X3: on a reachable state the chips are the selected options, each once,
    in catalog order: their ids are a permutation of [selected], and the
    counter of the panel equals the number of chips. *)
Theorem chips_show_the_selection s :
  reachable s →
  id <$> chip_options (selected s) ≡ₚ selected s
  ∧ length (chips (selected s)) = selected_counter s
  ∧ chip_options (selected s) `sublist_of` CONTEXT_OPTIONS.
Proof.
  intros Hwf%reachable_well_formed.
  pose proof (chip_ids_Permutation _ Hwf) as Hperm. split_and!.
  - exact Hperm.
  - unfold chips, selected_counter. rewrite length_fmap.
    rewrite <- (length_fmap id). by rewrite Hperm.
  - apply sublist_filter.
Qed.

Lemma chips_of_default_selection :
  reachable init
  ∧ length (chips (selected init)) = selected_counter init.
Proof.
  split; [exact init_reachable |].
  exact (proj1 (proj2 (chips_show_the_selection init init_reachable))).
Defined.

(** X4: toggle-all always flips the all-selected flag, and with it the
    checkbox and the label of the header, whatever the selection was. *)
Theorem toggleAll_flips_allSelected s :
  allSelected (state_after toggleAll s) = negb (allSelected s)
  ∧ toggleAll_label (state_after toggleAll s)
    = (if allSelected s then "Select All" else "Deselect All").
Proof.
  assert (Hflip : allSelected (state_after toggleAll s) = negb (allSelected s)).
  { unfold allSelected at 1. rewrite selected_toggleAll.
    destruct (allSelected s); reflexivity. }
  split; [exact Hflip |].
  unfold toggleAll_label. rewrite Hflip. destruct (allSelected s); reflexivity.
Qed.

Lemma context_changes_handle p a s :
  context_changes (trace_of (handle p a) s)
  = if is_confirm a && has_onContextChange p then [selected s] else [].
Proof.
  destruct a as [i| | |e|k| |e|]; try reflexivity; unfold handle.
  - unfold confirm. step_handler. destruct (has_onContextChange p); reflexivity.
  - unfold handleClick. step_handler.
    destruct (open s && wrapper_mounted e && negb (target_in_wrapper e)); reflexivity.
  - unfold handleKey. case_bool_decide; reflexivity.
  - unfold onKeyDown.
    destruct (bool_decide (key e = "Enter") && negb (shiftKey e)); reflexivity.
  - unfold trailingClick. destruct (isStreaming p), (has_onStop p); reflexivity.
Qed.

Lemma context_changes_run p acts s :
  Forall offered acts → well_formed (selected s) →
  Forall well_formed (context_changes (trace_of (run p acts) s))
  ∧ length (context_changes (trace_of (run p acts) s))
    = if has_onContextChange p then length (List.filter is_confirm acts) else 0%nat.
Proof.
  intros Hacts. revert s.
  induction Hacts as [|a acts Ha Hacts IH]; intros s Hs.
  - split; [constructor | by destruct (has_onContextChange p)].
  - simpl run. rewrite trace_of_seq. unfold context_changes at 1 2.
    rewrite omap_app. fold (context_changes (trace_of (handle p a) s)).
    fold (context_changes (trace_of (run p acts) (state_after (handle p a) s))).
    rewrite context_changes_handle.
    destruct (IH (state_after (handle p a) s)) as [IHwf IHlen];
      [by apply handle_well_formed |].
    split.
    + apply Forall_app. split; [| exact IHwf].
      destruct (is_confirm a && has_onContextChange p);
        [by apply Forall_singleton | constructor].
    + rewrite length_app, IHlen. simpl List.filter.
      destruct (is_confirm a), (has_onContextChange p); reflexivity.
Qed.

(** X5: whatever the user does on the composer, the parent is called once
    per Confirm (never, when it passed no [onContextChange]) and every
    selection it receives lists catalog ids without repeats. *)
Theorem parent_receives_well_formed_selections p acts :
  Forall offered acts →
  Forall well_formed (context_changes (trace_of (run p acts) init))
  ∧ length (context_changes (trace_of (run p acts) init))
    = if has_onContextChange p then length (List.filter is_confirm acts) else 0%nat.
Proof. intros Hacts. apply context_changes_run; [done | apply init_well_formed]. Qed.

Lemma parent_receives_after_two_confirms :
  Forall offered [Confirm; ToggleOption "Hunton -- A Treatise of Monarchy"; Confirm]
  ∧ length (context_changes
      (trace_of (run (mkProps true false false)
                   [Confirm; ToggleOption "Hunton -- A Treatise of Monarchy"; Confirm])
         init)) = 2%nat.
Proof.
  assert (Hacts : Forall offered
            [Confirm; ToggleOption "Hunton -- A Treatise of Monarchy"; Confirm]).
  { repeat constructor. }
  split; [exact Hacts |].
  exact (proj2 (parent_receives_well_formed_selections (mkProps true false false) _ Hacts)).
Defined.

(** X6: the two document listeners can only close the panel: for every
    click and every key they leave [selected] alone, call nothing, and never
    turn a closed panel open. *)
Theorem document_listeners_only_close e k s :
  selected (state_after (handleClick e) s) = selected s
  ∧ trace_of (handleClick e) s = []
  ∧ implb (open (state_after (handleClick e) s)) (open s) = true
  ∧ selected (state_after (handleKey k) s) = selected s
  ∧ trace_of (handleKey k) s = []
  ∧ implb (open (state_after (handleKey k) s)) (open s) = true.
Proof.
  destruct s as [o sel], e as [mounted inside].
  split_and!; try (destruct o, mounted, inside; reflexivity);
    unfold handleKey; case_bool_decide; destruct o; reflexivity.
Qed.

(** X7: toggling two ids in either order selects the same ids: on a
    selection without repeats the two results are permutations of each
    other. *)
Theorem toggles_commute i j l :
  NoDup l → toggle i (toggle j l) ≡ₚ toggle j (toggle i l).
Proof.
  intros Hnd. apply NoDup_Permutation; [by do 2 apply toggle_NoDup.. |].
  intros x. rewrite !toggle_elem_of.
  destruct (decide (x = i)) as [Hxi|Hxi], (decide (x = j)) as [Hxj|Hxj];
    destruct (decide (i ∈ l)), (decide (j ∈ l)); subst; intuition (subst; congruence || tauto).
Qed.

Lemma toggles_commute_on_default :
  NoDup (selected init)
  ∧ toggle "Vattel -- The Law of Nations"
      (toggle "blackstone -- commentaries v1" (selected init))
    ≡ₚ toggle "blackstone -- commentaries v1"
         (toggle "Vattel -- The Law of Nations" (selected init)).
Proof.
  split; [exact (proj1 init_well_formed) |].
  exact (toggles_commute _ _ _ (proj1 init_well_formed)).
Defined.

Lemma run_toggle_absent p ks s :
  NoDup ks → (∀ k, k ∈ ks → k ∉ selected s) →
  selected (state_after (run p (ToggleOption <$> ks)) s) = selected s ++ ks.
Proof.
  intros Hnd. revert s. induction Hnd as [|k ks Hk Hnd IH]; intros s Hout.
  - simpl. by rewrite app_nil_r.
  - rewrite fmap_cons. simpl run. rewrite state_after_seq, IH.
    + change (selected (state_after (toggleOption k) s)) with (toggle k (selected s)).
      rewrite toggle_absent by (apply Hout; by left).
      by rewrite <- app_assoc.
    + intros k' Hk'.
      change (selected (state_after (toggleOption k) s)) with (toggle k (selected s)).
      rewrite toggle_absent by (apply Hout; by left).
      rewrite elem_of_app, list_elem_of_singleton. intros [Hin | ->]; [| done].
      by apply (Hout k'); [right |].
Qed.

(** X8: ticking every unticked checkbox, one by one, reaches the
    all-selected state: the selection is then the old one followed by the
    ids that were missing, in catalog order, and the header offers
    "Deselect All". *)
Theorem ticking_the_rest_selects_all p s :
  well_formed (selected s) →
  selected (state_after (run p (ToggleOption <$> unticked (selected s))) s)
  = selected s ++ unticked (selected s)
  ∧ allSelected (state_after (run p (ToggleOption <$> unticked (selected s))) s) = true.
Proof.
  intros Hwf.
  assert (Hsel : selected (state_after (run p (ToggleOption <$> unticked (selected s))) s)
                 = selected s ++ unticked (selected s)).
  { apply run_toggle_absent; [apply NoDup_filter, catalog_NoDup |].
    intros k [Hk _]%list_elem_of_filter. done. }
  split; [exact Hsel |].
  apply allSelected_spec.
  - rewrite Hsel. destruct Hwf as [Hnd Hsub]. split.
    + apply NoDup_app. split_and!; [done | | apply NoDup_filter, catalog_NoDup].
      intros x Hx [Hout _]%list_elem_of_filter. done.
    + intros x [Hx | [_ Hx]%list_elem_of_filter]%elem_of_app; [by apply Hsub | done].
  - rewrite Hsel. intros x Hx. apply elem_of_app.
    destruct (decide (x ∈ selected s)); [by left | right].
    by apply list_elem_of_filter.
Qed.

Lemma ticking_the_rest_from_default :
  well_formed (selected init)
  ∧ allSelected (state_after
      (run (mkProps true false false) (ToggleOption <$> unticked (selected init))) init)
    = true.
Proof.
  split; [exact init_well_formed |].
  exact (proj2 (ticking_the_rest_selects_all (mkProps true false false) init init_well_formed)).
Defined.

End ChatBarViewFacts.

(** ** Onboarding: whole sessions *)
Module OnboardingFlowFacts.
Import Onboarding OnboardingFlow.

(** What one event does to the step and whether it posts the consent. *)
Lemma handle_step env a s :
  (currentStep (state_after (handle env a) s) = currentStep s
   ∧ existsb is_consent_post (trace_of (handle env a) s) = false)
  ∨ (currentStep (state_after (handle env a) s) = 2%Z
     ∧ existsb is_consent_post (trace_of (handle env a) s) = true).
Proof.
  destruct s as [step consent occ age].
  destruct a as [c| |v|v|]; try (left; split; reflexivity).
  destruct consent; [right | left]; split; reflexivity.
Qed.

Lemma run_step acts s :
  (currentStep (state_after (run acts) s) = currentStep s
   ∧ existsb is_consent_post (trace_of (run acts) s) = false)
  ∨ (currentStep (state_after (run acts) s) = 2%Z
     ∧ existsb is_consent_post (trace_of (run acts) s) = true).
Proof.
  revert s. induction acts as [|[env a] acts IH]; intros s.
  - left. split; reflexivity.
  - simpl run. rewrite state_after_seq, trace_of_seq, existsb_app.
    destruct (handle_step env a s) as [[Hs Ht] | [Hs Ht]];
      destruct (IH (state_after (handle env a) s)) as [[Hs' Ht'] | [Hs' Ht']];
      rewrite Ht, Ht'; simpl; [left | right | right | right];
      split; congruence.
Qed.

(** X9: for every sequence of events on the wizard, offered by the render
    or not, the step is 1 or 2, and it is 2 exactly when a consent event has
    been posted: there is no way to the demographics step around the consent
    post, and no way back to step 1. *)
Theorem step_two_iff_consent_posted acts :
  (currentStep (state_after (run acts) init) = 1%Z
   ∨ currentStep (state_after (run acts) init) = 2%Z)
  ∧ (currentStep (state_after (run acts) init) = 2%Z
     ↔ existsb is_consent_post (trace_of (run acts) init) = true).
Proof.
  destruct (run_step acts init) as [[Hs Ht] | [Hs Ht]]; rewrite Hs, Ht.
  - split; [by left |]. split; intros H; discriminate H.
  - split; [by right |]. done.
Qed.

(** The two phases of a session that the render allows. *)
Lemma completions_run acts s :
  currentStep s = 2%Z → consentGiven s = true →
  (occupation s = "" ∨ occupation s ∈ occupation_values) →
  (ageRange s = "" ∨ ageRange s ∈ ageRange_values) →
  allowed acts s = true →
  completions (trace_of (run acts) s) = true
  ∧ consentGiven (state_after (run acts) s) = true.
Proof.
  revert s. induction acts as [|[env a] acts IH]; intros s Hstep Hc Hocc Hage Hacts.
  - split; [reflexivity | exact Hc].
  - simpl in Hacts. apply andb_prop in Hacts as [Ha Hrest].
    simpl run. rewrite state_after_seq, trace_of_seq.
    destruct s as [step consent occ age]. simpl in *. subst step consent.
    destruct a as [c| |v|v|]; simpl in Ha; try discriminate Ha.
    + apply bool_decide_eq_true in Ha.
      apply (IH (mkState 2 true v age)); auto.
    + apply bool_decide_eq_true in Ha.
      apply (IH (mkState 2 true occ v)); auto.
    + unfold demographic_disabled, truthy in Ha. simpl in Ha.
      rewrite !negb_involutive in Ha.
      apply negb_true_iff, orb_false_iff in Ha as [Hocc' Hage'].
      apply bool_decide_eq_false in Hocc', Hage'.
      destruct Hocc as [-> | Hocc]; [done |].
      destruct Hage as [-> | Hage]; [done |].
      destruct (IH (mkState 2 true occ age)) as [IHt IHc]; auto.
      split; [| exact IHc].
      change (trace_of (handle env DemographicContinueClick) (mkState 2 true occ age))
        with [Fetch "/api/onboarding" "POST"
                (DemographicsBody "demographics" occ age (now_iso env) (userAgent_of env));
              OnComplete].
      cbn [app completions].
      change (state_after (handle env DemographicContinueClick) (mkState 2 true occ age))
        with (mkState 2 true occ age).
      rewrite IHt, !bool_decide_eq_true_2 by done. reflexivity.
Qed.

Lemma consent_then_completions acts s :
  currentStep s = 1%Z → occupation s = "" → ageRange s = "" →
  allowed acts s = true →
  (trace_of (run acts) s = [] ∧ currentStep (state_after (run acts) s) = 1%Z)
  ∨ (∃ env rest,
       trace_of (run acts) s
       = Fetch "/api/onboarding" "POST"
           (ConsentBody "consent" "accepted" (now_iso env) (userAgent_of env))
         :: rest
       ∧ completions rest = true
       ∧ currentStep (state_after (run acts) s) = 2%Z
       ∧ consentGiven (state_after (run acts) s) = true).
Proof.
  revert s. induction acts as [|[env a] acts IH]; intros s Hstep Hocc Hage Hacts.
  - left. split; [reflexivity | exact Hstep].
  - simpl in Hacts. apply andb_prop in Hacts as [Ha Hrest].
    simpl run. rewrite state_after_seq, trace_of_seq.
    destruct s as [step consent occ age]. simpl in *. subst step occ age.
    destruct a as [c| |v|v|]; simpl in Ha; try discriminate Ha.
    + apply (IH (mkState 1 _ "" "")); auto.
    + unfold consent_disabled in Ha. simpl in Ha.
      apply negb_true_iff, negb_false_iff in Ha. subst consent.
      right. exists env, (trace_of (run acts) (mkState 2 true "" "")).
      destruct (completions_run acts (mkState 2 true "" "")) as [Ht Hc]; auto.
      split_and!; [reflexivity | exact Ht | | exact Hc].
      change (state_after (handle env ConsentContinueClick) (mkState 1 true "" ""))
        with (mkState 2 true "" "").
      destruct (run_step acts (mkState 2 true "" "")) as [[Hs _] | [Hs _]]; exact Hs.
Qed.

(** X10: in a session where every action was offered by the render (the
    step's own controls, enabled buttons, select items), nothing leaves the
    component before the consent post, which is sent at most once; after it
    the trace is a series of completed demographics, each a post with an
    occupation and an age range from the selects followed by [onComplete];
    and on step 2 the consent flag is set. *)
Theorem allowed_session_trace acts :
  allowed acts init = true →
  (trace_of (run acts) init = []
   ∧ currentStep (state_after (run acts) init) = 1%Z)
  ∨ (∃ env rest,
       trace_of (run acts) init
       = Fetch "/api/onboarding" "POST"
           (ConsentBody "consent" "accepted" (now_iso env) (userAgent_of env))
         :: rest
       ∧ completions rest = true
       ∧ currentStep (state_after (run acts) init) = 2%Z
       ∧ consentGiven (state_after (run acts) init) = true).
Proof. intros Hacts. by apply consent_then_completions. Qed.

Lemma allowed_session_example :
  allowed [(mkEnv "2025-03-01T10:00:00.000Z" (Some "UA"), CheckedChange Checked);
           (mkEnv "2025-03-01T10:00:01.000Z" (Some "UA"), ConsentContinueClick);
           (mkEnv "2025-03-01T10:00:02.000Z" (Some "UA"), OccupationChange "student");
           (mkEnv "2025-03-01T10:00:03.000Z" (Some "UA"), AgeRangeChange "25-34");
           (mkEnv "2025-03-01T10:00:04.000Z" (Some "UA"), DemographicContinueClick)]
    init = true
  ∧ ((trace_of (run
        [(mkEnv "2025-03-01T10:00:00.000Z" (Some "UA"), CheckedChange Checked);
         (mkEnv "2025-03-01T10:00:01.000Z" (Some "UA"), ConsentContinueClick);
         (mkEnv "2025-03-01T10:00:02.000Z" (Some "UA"), OccupationChange "student");
         (mkEnv "2025-03-01T10:00:03.000Z" (Some "UA"), AgeRangeChange "25-34");
         (mkEnv "2025-03-01T10:00:04.000Z" (Some "UA"), DemographicContinueClick)])
        init = []
      ∧ currentStep (state_after (run
        [(mkEnv "2025-03-01T10:00:00.000Z" (Some "UA"), CheckedChange Checked);
         (mkEnv "2025-03-01T10:00:01.000Z" (Some "UA"), ConsentContinueClick);
         (mkEnv "2025-03-01T10:00:02.000Z" (Some "UA"), OccupationChange "student");
         (mkEnv "2025-03-01T10:00:03.000Z" (Some "UA"), AgeRangeChange "25-34");
         (mkEnv "2025-03-01T10:00:04.000Z" (Some "UA"), DemographicContinueClick)])
        init) = 1%Z)
     ∨ (∃ env rest,
         trace_of (run
        [(mkEnv "2025-03-01T10:00:00.000Z" (Some "UA"), CheckedChange Checked);
         (mkEnv "2025-03-01T10:00:01.000Z" (Some "UA"), ConsentContinueClick);
         (mkEnv "2025-03-01T10:00:02.000Z" (Some "UA"), OccupationChange "student");
         (mkEnv "2025-03-01T10:00:03.000Z" (Some "UA"), AgeRangeChange "25-34");
         (mkEnv "2025-03-01T10:00:04.000Z" (Some "UA"), DemographicContinueClick)])
        init
         = Fetch "/api/onboarding" "POST"
             (ConsentBody "consent" "accepted" (now_iso env) (userAgent_of env))
           :: rest
         ∧ completions rest = true
         ∧ currentStep (state_after (run
        [(mkEnv "2025-03-01T10:00:00.000Z" (Some "UA"), CheckedChange Checked);
         (mkEnv "2025-03-01T10:00:01.000Z" (Some "UA"), ConsentContinueClick);
         (mkEnv "2025-03-01T10:00:02.000Z" (Some "UA"), OccupationChange "student");
         (mkEnv "2025-03-01T10:00:03.000Z" (Some "UA"), AgeRangeChange "25-34");
         (mkEnv "2025-03-01T10:00:04.000Z" (Some "UA"), DemographicContinueClick)])
        init) = 2%Z
         ∧ consentGiven (state_after (run
        [(mkEnv "2025-03-01T10:00:00.000Z" (Some "UA"), CheckedChange Checked);
         (mkEnv "2025-03-01T10:00:01.000Z" (Some "UA"), ConsentContinueClick);
         (mkEnv "2025-03-01T10:00:02.000Z" (Some "UA"), OccupationChange "student");
         (mkEnv "2025-03-01T10:00:03.000Z" (Some "UA"), AgeRangeChange "25-34");
         (mkEnv "2025-03-01T10:00:04.000Z" (Some "UA"), DemographicContinueClick)])
        init) = true)).
Proof.
  split; [reflexivity |].
  apply allowed_session_trace. reflexivity.
Defined.

End OnboardingFlowFacts.

(** ** ChatMessage: series of presses, the inline prompt, copy/share/re-ask *)
Module ChatMessageActionsFacts.
Import ChatMessage ChatMessageActions ChatMessageFacts.

(** One press, from any state: a toast, then one post whose action names
    the state the press leaves. *)
Lemma press_once p d s :
  ∃ msg body a,
    trace_of (handleThumb d p) s = [ToastSuccess msg; Fetch "/api/feedback" "POST" body]
    ∧ feedback_action (Fetch "/api/feedback" "POST" body) = Some a
    ∧ thumbsState (state_after (handleThumb d p) s) = thumb_of_action a
    ∧ showPrompt (state_after (handleThumb d p) s)
      = match thumbsState (state_after (handleThumb d p) s) with
        | Some _ => true
        | None => false
        end.
Proof.
  destruct s as [[[]|] sp], d; do 3 eexists; split_and!; reflexivity.
Qed.

(** X11: after any series of thumb presses, every press has posted exactly
    one feedback event, and the local [thumbsState] is what the last posted
    action says (["up"], ["down"], or nothing for ["remove"]); the prompt
    flag is raised exactly when a thumb is left active. *)
Theorem presses_in_sync p ds s :
  length (feedback_actions (trace_of (presses p ds) s)) = length ds
  ∧ count is_fetch (trace_of (presses p ds) s) = length ds
  ∧ thumbsState (state_after (presses p ds) s)
    = match last (feedback_actions (trace_of (presses p ds) s)) with
      | Some a => thumb_of_action a
      | None => thumbsState s
      end
  ∧ showPrompt (state_after (presses p ds) s)
    = match ds with
      | [] => showPrompt s
      | _ => match thumbsState (state_after (presses p ds) s) with
             | Some _ => true
             | None => false
             end
      end.
Proof.
  revert s. induction ds as [|d ds IH]; intros s; [by split_and! |].
  simpl presses. rewrite state_after_seq, trace_of_seq.
  destruct (press_once p d s) as (msg & body & a & Ht & Ha & Hs & Hp).
  destruct (IH (state_after (handleThumb d p) s)) as (IHlen & IHcount & IHs & IHp).
  rewrite Ht. unfold feedback_actions in *. rewrite omap_app, count_app.
  change (omap feedback_action [ToastSuccess msg; Fetch "/api/feedback" "POST" body])
    with (match feedback_action (Fetch "/api/feedback" "POST" body) with
          | Some a' => [a'] | None => [] end).
  rewrite Ha. split_and!.
  - rewrite length_app, IHlen. reflexivity.
  - rewrite IHcount. reflexivity.
  - rewrite IHs, last_app. simpl.
    destruct (last _); [reflexivity | exact Hs].
  - rewrite IHp. destruct ds; [exact Hp | reflexivity].
Qed.

(** X12: while the inline prompt is on screen, "Give Feedback" opens the
    modal exactly once and "Dismiss" never does; both report to
    [onPromptHandled] when the parent passed it, both take the prompt off
    the screen, and neither touches the thumbs. *)
Theorem prompt_buttons p s :
  prompt_rendered p s = true →
  trace_of (giveFeedbackClick p) s
  = OnOpenFeedback :: (if has_onPromptHandled p then [OnPromptHandled] else [])
  ∧ trace_of (dismissClick p) s
    = (if has_onPromptHandled p then [OnPromptHandled] else [])
  ∧ prompt_rendered p (state_after (giveFeedbackClick p) s) = false
  ∧ prompt_rendered p (state_after (dismissClick p) s) = false
  ∧ thumbsState (state_after (giveFeedbackClick p) s) = thumbsState s
  ∧ thumbsState (state_after (dismissClick p) s) = thumbsState s.
Proof.
  intros Hshown.
  assert (Hopen : has_onOpenFeedback p = true).
  { unfold prompt_rendered in Hshown. destruct (role (message p)); [discriminate |].
    destruct (isLastAssistantMessage p), (has_onOpenFeedback p); done. }
  assert (Hgive : state_after (giveFeedbackClick p) s = mkState (thumbsState s) false).
  { unfold giveFeedbackClick. rewrite Hopen.
    destruct (has_onPromptHandled p); reflexivity. }
  assert (Hdismiss : state_after (dismissClick p) s = mkState (thumbsState s) false).
  { unfold dismissClick. destruct (has_onPromptHandled p); reflexivity. }
  rewrite Hgive, Hdismiss, !prompt_hidden. split_and!; try reflexivity.
  - unfold giveFeedbackClick. rewrite Hopen.
    destruct (has_onPromptHandled p); reflexivity.
  - unfold dismissClick. destruct (has_onPromptHandled p); reflexivity.
Qed.

Lemma prompt_buttons_example :
  prompt_rendered (mkProps (mkMessage "m-3" assistant "Try Locke.") true true (Some true) true)
    (mkState None true) = true
  ∧ trace_of (giveFeedbackClick
                (mkProps (mkMessage "m-3" assistant "Try Locke.") true true (Some true) true))
      (mkState None true)
    = [OnOpenFeedback; OnPromptHandled].
Proof.
  split; [reflexivity |].
  exact (proj1 (prompt_buttons
                  (mkProps (mkMessage "m-3" assistant "Try Locke.") true true (Some true) true)
                  (mkState None true) eq_refl)).
Defined.

(** X13: the prompt is on screen at mount only when the parent passes
    [showFeedbackPrompt = true]; with the prop left undefined it is hidden
    at mount and comes up after a fresh thumb press; with the prop [false]
    no press brings it up.  In all cases it needs an assistant message that
    is the last one and an [onOpenFeedback] callback. *)
Theorem prompt_at_mount_and_after_press p d t0 sp :
  t0 ≠ Some d →
  (prompt_rendered p (mounted p) = true
   ↔ role (message p) = assistant ∧ isLastAssistantMessage p = true
     ∧ has_onOpenFeedback p = true ∧ showFeedbackPrompt p = Some true)
  ∧ (prompt_rendered p (state_after (handleThumb d p) (mkState t0 sp)) = true
     ↔ role (message p) = assistant ∧ isLastAssistantMessage p = true
       ∧ has_onOpenFeedback p = true ∧ showFeedbackPrompt p ≠ Some false).
Proof.
  intros Hfresh.
  assert (Hpress : state_after (handleThumb d p) (mkState t0 sp) = mkState (Some d) true).
  { destruct d, t0 as [[]|]; try reflexivity; congruence. }
  rewrite Hpress. unfold mounted, prompt_rendered, syncPrompt, init.
  destruct p as [[i r c] last cb sfp handled]; simpl.
  destruct r, last, cb, sfp as [[]|]; simpl; split; split; intros H;
    try discriminate; try reflexivity; try tauto; try (split_and!; done);
    destruct H as (? & ? & ? & ?); try discriminate; try congruence.
Qed.

Lemma prompt_appears_after_press_when_prop_undefined :
  None ≠ Some up
  ∧ prompt_rendered (mkProps (mkMessage "m-3" assistant "Try Locke.") true true None false)
      (mounted (mkProps (mkMessage "m-3" assistant "Try Locke.") true true None false))
    = false
  ∧ prompt_rendered (mkProps (mkMessage "m-3" assistant "Try Locke.") true true None false)
      (state_after
         (handleThumb up (mkProps (mkMessage "m-3" assistant "Try Locke.") true true None false))
         (mkState None false))
    = true.
Proof.
  assert (Hfresh : @None Thumb ≠ Some up) by discriminate.
  split; [exact Hfresh |]. split; [reflexivity |].
  apply (proj2 (prompt_at_mount_and_after_press
                  (mkProps (mkMessage "m-3" assistant "Try Locke.") true true None false)
                  up None false Hfresh)).
  split_and!; try reflexivity. discriminate.
Defined.

(** X14: Share tries the native dialog first and touches the clipboard only
    when that is missing or throws; the copied text is then the page URL, a
    blank line and the message.  An error toast appears only when that
    fallback write is rejected, and the handler lets an exception out only
    when the fallback finds no clipboard; every call ends in exactly one
    toast or in that exception. *)
Theorem share_falls_back_to_clipboard b m :
  (NativeShare (content m) ∈ handleShare b m ↔ share b ≠ ShareMissing)
  ∧ (clipboard_writes (handleShare b m) = [share_fallback_text b (content m)]
     ↔ share b ≠ ShareReturns ∧ clipboard b ≠ ClipboardMissing)
  ∧ (clipboard_writes (handleShare b m) = []
     ↔ share b = ShareReturns ∨ clipboard b = ClipboardMissing)
  ∧ (existsb is_error_toast (handleShare b m) = true
     ↔ share b ≠ ShareReturns ∧ clipboard b = ClipboardRejects)
  ∧ (Uncaught ∈ handleShare b m
     ↔ share b ≠ ShareReturns ∧ clipboard b = ClipboardMissing)
  ∧ (length (List.filter is_toast (handleShare b m))
     + length (List.filter is_uncaught (handleShare b m)) = 1)%nat.
Proof.
  destruct b as [cb sh url], m as [i r c]. unfold handleShare; simpl.
  destruct cb, sh; simpl; split_and!; try reflexivity; split; intros H;
    try discriminate; try done;
    try (by set_unfold; intuition discriminate);
    try (by destruct H as [H1 H2]; first [destruct H1 | destruct H2]; done);
    try (by destruct H as [H|H]; discriminate);
    try (by split; discriminate);
    try (by left); try (by right).
Qed.

(** X15: Copy and Re-ask never show an error toast.  Copy shows its success
    toast whenever a clipboard exists, without waiting for the write; Re-ask
    with an [onReask] callback hands over the message text and leaves the
    clipboard alone, and without one shows its toast only when the write
    resolves. *)
Theorem copy_and_reask_report b m has_onReask :
  existsb is_error_toast (handleCopy b m) = false
  ∧ existsb is_error_toast (handleReask has_onReask b m) = false
  ∧ (Out (ToastSuccess "Copied to clipboard") ∈ handleCopy b m
     ↔ clipboard b ≠ ClipboardMissing)
  ∧ (clipboard_writes (handleCopy b m) = [content m]
     ↔ clipboard b ≠ ClipboardMissing)
  ∧ handleReask true b m
    = [OnReask (content m); Out (ToastSuccess "Message copied to input")]
  ∧ (existsb is_toast (handleReask false b m) = true
     ↔ clipboard b = ClipboardResolves).
Proof.
  destruct b as [cb sh url], m as [i r c]. unfold handleCopy, handleReask; simpl.
  destruct cb, has_onReask; simpl; split_and!; try reflexivity; split; intros H;
    try discriminate; try done;
    try (by set_unfold; intuition discriminate);
    try (by left); try (by right; left).
Qed.

End ChatMessageActionsFacts.

(** ** FeedbackModal: stars, blank text, whole sessions *)
Module FeedbackModalFlowFacts.
Import FeedbackModal FeedbackModalFlow FeedbackModalFacts.

Lemma zero_to_five (n : Z) :
  (0 ≤ n ≤ 5)%Z → n = 0%Z ∨ n = 1%Z ∨ n = 2%Z ∨ n = 3%Z ∨ n = 4%Z ∨ n = 5%Z.
Proof. lia. Qed.

(** X16: with a rating and a hover on the scale, the filled stars are the
    first k stars, k being the hovered star while the mouse is over one and
    the committed rating otherwise. *)
Theorem filled_stars_prefix rating hoveredStar :
  (0 ≤ rating ≤ 5)%Z → (0 ≤ hoveredStar ≤ 5)%Z →
  filled_stars rating hoveredStar
  = take (Z.to_nat (if (hoveredStar =? 0)%Z then rating else hoveredStar)) stars.
Proof.
  intros Hr Hh.
  apply zero_to_five in Hr as [->|[->|[->|[->|[->| ->]]]]];
    apply zero_to_five in Hh as [->|[->|[->|[->|[->| ->]]]]]; reflexivity.
Qed.

Lemma filled_stars_preview :
  (0 ≤ 2 ≤ 5)%Z ∧ (0 ≤ 4 ≤ 5)%Z
  ∧ filled_stars 2 4 = [1; 2; 3; 4]%Z ∧ filled_stars 2 0 = [1; 2]%Z.
Proof.
  assert (H2 : (0 ≤ 2 ≤ 5)%Z) by lia.
  assert (H4 : (0 ≤ 4 ≤ 5)%Z) by lia.
  assert (H0 : (0 ≤ 0 ≤ 5)%Z) by lia.
  split; [exact H2 |]. split; [exact H4 |].
  split; [exact (filled_stars_prefix 2 4 H2 H4) | exact (filled_stars_prefix 2 0 H2 H0)].
Defined.

Lemma trimStart_nil t : trimStart t = [] ↔ Forall (λ c, stripped c = true) t.
Proof.
  induction t as [|c t IH]; simpl; [by split |].
  destruct (stripped c) eqn:Hc.
  - rewrite IH. split; [by constructor | by inversion 1].
  - split; [discriminate |]. inversion 1; congruence.
Qed.

Lemma trimStart_stripped t :
  Forall (λ c, stripped c = true) (trimStart t) → trimStart t = [].
Proof.
  induction t as [|c t IH]; simpl; [done |].
  destruct (stripped c) eqn:Hc; [exact IH |]. inversion 1; congruence.
Qed.

Lemma trim_nil t : trim t = [] ↔ Forall (λ c, stripped c = true) t.
Proof.
  unfold trim, trimEnd. split.
  - intros H. apply (f_equal reverse) in H. rewrite reverse_involutive, reverse_nil in H.
    apply trimStart_nil, Forall_reverse, trimStart_stripped in H.
    by apply trimStart_nil.
  - intros H. apply trimStart_nil in H. rewrite H. reflexivity.
Qed.

(** X17: a text made of white space and line terminators only counts as no
    text: the submit button is disabled exactly when both ratings are 0 and
    every code unit of the text is one that [trim] strips. *)
Theorem blank_text_counts_as_nothing s :
  submit_disabled s = true
  ↔ helpfulnessRating s = 0%Z ∧ citationRating s = 0%Z
    ∧ Forall (λ c, stripped c = true) (feedbackText s).
Proof. unfold submit_disabled. by rewrite nothing_entered_spec, trim_nil. Qed.

Lemma in_range_star star : star ∈ stars → (0 ≤ star ≤ 5)%Z ∧ (0 < star)%Z.
Proof. unfold stars. set_unfold. lia. Qed.

Lemma handle_in_range p a s :
  offered a → in_range s → in_range (state_after (handle p a) s).
Proof.
  intros Ha (Hh & Hhh & Hc & Hhc). destruct s as [h hh c hc t]. simpl in *.
  destruct a as [[] star|[] star|[]|t'| |]; simpl in Ha;
    try apply in_range_star in Ha as [Ha _];
    try (by unfold in_range; simpl; split_and!; first [done | lia]).
  unfold handle, handleSubmit. step_handler.
  destruct (nothing_entered _); unfold in_range; simpl; split_and!; first [done | lia].
Qed.

Lemma trace_of_submit p s :
  trace_of (handle p SubmitClick) s
  = if nothing_entered s
    then [ToastError "Please provide at least one rating or feedback"]
    else [Fetch "/api/feedback" "POST"
            (ExtendedBody "extended" (helpfulnessRating s) (citationRating s)
               (feedbackText s) (conversation_or_empty p));
          ToastSuccess "Thank you for your feedback!";
          OnClose].
Proof.
  unfold handle, handleSubmit. step_handler.
  destruct (nothing_entered s); reflexivity.
Qed.

Lemma handle_meaningful p a s :
  in_range s →
  forallb (meaningful_post (conversation_or_empty p)) (trace_of (handle p a) s) = true.
Proof.
  intros (Hh & _ & Hc & _).
  destruct a as [[] star|[] star|[]|t'| |]; try reflexivity.
  rewrite trace_of_submit.
  destruct (nothing_entered s) eqn:Hne; [reflexivity |].
  cbn [forallb meaningful_post]. rewrite !bool_decide_eq_true_2 by done.
  unfold nothing_entered in Hne.
  destruct (Z.eqb_spec (helpfulnessRating s) 0) as [Hz|Hnz].
  - destruct (Z.eqb_spec (citationRating s) 0) as [Hz'|Hnz'].
    + simpl in Hne. apply negb_false_iff in Hne. rewrite Hne.
      by rewrite !orb_true_r.
    + replace (0 <? citationRating s)%Z with true by (symmetry; apply Z.ltb_lt; lia).
      by rewrite orb_true_r.
  - replace (0 <? helpfulnessRating s)%Z with true by (symmetry; apply Z.ltb_lt; lia).
    reflexivity.
Qed.

Lemma run_meaningful p acts s :
  Forall offered acts → in_range s →
  forallb (meaningful_post (conversation_or_empty p)) (trace_of (run p acts) s) = true
  ∧ in_range (state_after (run p acts) s).
Proof.
  intros Hacts. revert s. induction Hacts as [|a acts Ha _ IH]; intros s Hs.
  - by split.
  - simpl run. rewrite state_after_seq, trace_of_seq, forallb_app.
    rewrite handle_meaningful by done.
    apply IH. by apply handle_in_range.
Qed.

Lemma init_in_range : in_range init.
Proof. unfold in_range; simpl. lia. Qed.

(** X18: whatever is done on the form, a click on a disabled submit
    included, every post that leaves it is a meaningful one: an extended
    event with both ratings between 0 and 5, at least one star or a text
    that is not blank, and the conversation of the props.  The ratings and
    hover values stay on the scale throughout. *)
Theorem session_posts_are_meaningful p acts :
  Forall offered acts →
  forallb (meaningful_post (conversation_or_empty p)) (trace_of (run p acts) init) = true
  ∧ in_range (state_after (run p acts) init).
Proof. intros Hacts. apply run_meaningful; [done | apply init_in_range]. Qed.

Lemma session_with_forced_submit :
  Forall offered [SubmitClick; MouseEnter Citation 4; Rate Citation 4;
                  TextChange [0x20]%N; SubmitClick; SubmitClick]
  ∧ forallb (meaningful_post [])
      (trace_of (run (mkProps true None)
                   [SubmitClick; MouseEnter Citation 4; Rate Citation 4;
                    TextChange [0x20]%N; SubmitClick; SubmitClick]) init) = true.
Proof.
  assert (Hacts : Forall offered
            [SubmitClick; MouseEnter Citation 4; Rate Citation 4;
             TextChange [0x20]%N; SubmitClick; SubmitClick]).
  { repeat constructor. }
  split; [exact Hacts |].
  exact (proj1 (session_posts_are_meaningful (mkProps true None) _ Hacts)).
Defined.

Lemma handle_keeps_rated p a s :
  offered a → is_edit a = true →
  (0 < helpfulnessRating s ∨ 0 < citationRating s)%Z →
  (0 < helpfulnessRating (state_after (handle p a) s)
   ∨ 0 < citationRating (state_after (handle p a) s))%Z.
Proof.
  intros Ha He Hs. destruct s as [h hh c hc t]. simpl in *.
  destruct a as [[] star|[] star|[]|t'| |]; try discriminate He; simpl in Ha;
    try apply in_range_star in Ha as [_ Ha]; simpl; tauto.
Qed.

(** X19: once a star has been given, no further rating, hovering or typing
    disables the submit button again: a rating can be changed but not taken
    back to 0, so the button stays enabled until the form is submitted or
    closed. *)
Theorem rated_form_stays_submittable p acts s :
  Forall offered acts → forallb is_edit acts = true →
  (0 < helpfulnessRating s ∨ 0 < citationRating s)%Z →
  submit_disabled (state_after (run p acts) s) = false.
Proof.
  intros Hacts. revert s. induction Hacts as [|a acts Ha _ IH]; intros s Hedit Hs.
  - simpl. unfold submit_disabled, nothing_entered.
    change (state_after skip s) with s.
    destruct (Z.eqb_spec (helpfulnessRating s) 0), (Z.eqb_spec (citationRating s) 0);
      try reflexivity. lia.
  - simpl in Hedit. apply andb_prop in Hedit as [He Hrest].
    simpl run. rewrite state_after_seq. apply IH; [done |].
    by apply handle_keeps_rated.
Qed.

Lemma rated_form_example :
  Forall offered [Rate Helpfulness 5; MouseEnter Helpfulness 1; MouseLeave Helpfulness;
                  TextChange []]
  ∧ forallb is_edit [Rate Helpfulness 5; MouseEnter Helpfulness 1; MouseLeave Helpfulness;
                     TextChange []] = true
  ∧ (0 < helpfulnessRating (mkState 3 0 0 0 []) ∨ 0 < citationRating (mkState 3 0 0 0 []))%Z
  ∧ submit_disabled
      (state_after (run (mkProps true None)
                      [Rate Helpfulness 5; MouseEnter Helpfulness 1;
                       MouseLeave Helpfulness; TextChange []])
         (mkState 3 0 0 0 [])) = false.
Proof.
  assert (Hacts : Forall offered
            [Rate Helpfulness 5; MouseEnter Helpfulness 1; MouseLeave Helpfulness;
             TextChange []]).
  { repeat constructor. }
  assert (Hs : (0 < helpfulnessRating (mkState 3 0 0 0 [])
                ∨ 0 < citationRating (mkState 3 0 0 0 []))%Z).
  { left. reflexivity. }
  split; [exact Hacts |]. split; [reflexivity |]. split; [exact Hs |].
  exact (rated_form_stays_submittable (mkProps true None) _ _ Hacts eq_refl Hs).
Defined.

End FeedbackModalFlowFacts.

(** ** The composer's calls to the outside *)
Module ChatBarCallsFacts.
Import ChatBar ChatBarFacts.

Lemma handle_calls_only_props p a s :
  Forall (λ e, match e with
               | OnSend | OnStop | PreventDefault | OnContextChange _ => True
               | _ => False
               end) (trace_of (handle p a) s).
Proof.
  destruct a as [i| | |e|k| |e|]; unfold handle; try (by constructor).
  - unfold confirm. step_handler.
    destruct (has_onContextChange p); by repeat constructor.
  - unfold handleClick. step_handler.
    destruct (open s && wrapper_mounted e && negb (target_in_wrapper e)); constructor.
  - unfold handleKey. case_bool_decide; constructor.
  - unfold onKeyDown.
    destruct (bool_decide (key e = "Enter") && negb (shiftKey e)); by repeat constructor.
  - unfold trailingClick.
    destruct (isStreaming p), (has_onStop p); by repeat constructor.
Qed.

Lemma dispatch_calls p ev s :
  Forall ChatBarDom.prop_or_event_method (ChatBarDom.dispatch p ev s).2.
Proof.
  assert (Hout : ∀ a, Forall ChatBarDom.prop_or_event_method
                        (ChatBarDom.Out <$> trace_of (handle p a) s)).
  { intros a. apply Forall_fmap.
    eapply Forall_impl; [apply handle_calls_only_props |].
    intros e He. by destruct e. }
  destruct ev as [v | a]; simpl.
  - by repeat constructor.
  - destruct a; try apply Hout. by repeat constructor.
Qed.

Lemma session_cons p ev evs s :
  (ChatBarDom.session p (ev :: evs) s).2
  = (ChatBarDom.dispatch p ev s).2
    ++ (ChatBarDom.session p evs (ChatBarDom.dispatch p ev s).1).2.
Proof.
  simpl. destruct (ChatBarDom.dispatch p ev s) as [s1 t1]. simpl.
  destruct (ChatBarDom.session p evs s1) as [s2 t2]. reflexivity.
Qed.

(** X20: the event handlers of the composer never talk to the network and
    never raise a toast: over any sequence of events, typing and the Books
    button included, every call they make is one of the props [onChange],
    [onSend], [onStop], [onContextChange] or one of the event methods
    [preventDefault], [stopPropagation]. *)
Theorem composer_only_calls_its_props p evs s :
  Forall ChatBarDom.prop_or_event_method (ChatBarDom.session p evs s).2
  ∧ List.filter ChatBarDom.is_fetch_or_toast (ChatBarDom.session p evs s).2 = [].
Proof.
  assert (Hall : Forall ChatBarDom.prop_or_event_method (ChatBarDom.session p evs s).2).
  { revert s. induction evs as [|ev evs IH]; intros s; [constructor |].
    rewrite session_cons. apply Forall_app. split; [apply dispatch_calls | apply IH]. }
  split; [exact Hall |].
  induction Hall as [|c tr Hc _ IHtr]; [reflexivity |].
  destruct c as [[]| |]; try done; exact IHtr.
Qed.

(** X21: while the parent streams, the trailing control is the Stop button:
    a click on it never sends, and calls [onStop] when the parent passed
    one; the textarea keeps sending on Enter without Shift all the same. *)
Theorem streaming_stop_button p s :
  isStreaming p = true →
  trace_of (trailingClick p) s = (if has_onStop p then [OnStop] else [])
  ∧ count is_onSend (trace_of (trailingClick p) s) = 0%nat
  ∧ state_after (trailingClick p) s = s
  ∧ trace_of (handle p (KeyDownTextarea (mkKey "Enter" false))) s
    = [PreventDefault; OnSend].
Proof.
  intros Hstream. unfold trailingClick. rewrite Hstream. simpl.
  destruct (has_onStop p), s; split_and!; reflexivity.
Qed.

Lemma streaming_stop_button_example :
  isStreaming (mkProps true true true) = true
  ∧ trace_of (trailingClick (mkProps true true true)) init = [OnStop].
Proof.
  split; [reflexivity |].
  exact (proj1 (streaming_stop_button (mkProps true true true) init eq_refl)).
Defined.

End ChatBarCallsFacts.
